(** * Automated Restocking Optimization Engine: the inventory engine of
      [warehouse.py], embedded in Rocq.

    Conventions of the embedding.
    - Python [int] is [Z].  A Python [float] is a binary64 number
      ([spec_float] of the standard library, with [prec = 53] and
      [emax = 1024]); where the source multiplies, divides or takes a square
      root of floats and then rounds to an [int] ([place_order], the heuristic
      and the EOQ strategies), the operations are the binary64 ones, with the
      [OverflowError] and [ValueError] of the conversions.  The float
      attributes of an item that only enter sums of costs and the
      coefficients of the linear program are kept as the exact rational the
      constructor is given, and [to_float] takes them into binary64 where a
      float computation reads them.
    - A Python [dict] keeps insertion order and the simulation iterates over
      it, so a dict is an association list read and written through
      [dict_get] and [dict_set].
    - Objects are mutated in place in the source; here every operation returns
      the new value of what it mutates, and the dict that holds the object is
      rewritten at the object's key.
    - The process-wide [random] module is an explicit generator state threaded
      through every draw, over an abstract [RandomSource].
    - A Python exception is the [Raise] case of [result].
    - The LP solver behind [LPStrategy] is a parameter: the strategy builds the
      problem as data and the solver call either raises or leaves a status and
      the values of the variables.
    - The plotting helper is left out. *)

From Stdlib Require Import ZArith QArith Qround Qabs List String Bool Lia Lqa.
From Corelib Require Import SpecFloat.
Import ListNotations.

Local Open Scope Z_scope.

(** ** Exceptions and results *)

Inductive exn : Type :=
| ValueError      (* random.randint on an empty range; int of a NaN *)
| OverflowError   (* int too large for a float; int of an infinity *)
| PulpSolverError (* raised by the solver call of PuLP *)
| StrategyError.  (* a failure reported by a strategy's plan *)

Inductive result (A : Type) : Type :=
| Ok (a : A)
| Raise (e : exn).

Arguments Ok {A} a.
Arguments Raise {A} e.

Definition bind {A B : Type} (m : result A) (k : A -> result B) : result B :=
  match m with
  | Ok a => k a
  | Raise e => Raise e
  end.

Notation "x <- m ;; k" := (bind m (fun x => k))
  (at level 61, m at next level, right associativity).
Notation "' p <- m ;; k" := (bind m (fun x => match x with p => k end))
  (at level 61, p pattern, m at next level, right associativity).

(** ** Insertion-ordered dictionaries with string keys *)

Definition dict (V : Type) : Type := list (string * V).

Fixpoint dict_get {V : Type} (k : string) (d : dict V) : option V :=
  match d with
  | [] => None
  | (k', v) :: d' => if String.eqb k k' then Some v else dict_get k d'
  end.

(** [d[k] = v]: an existing key keeps its position, a new key goes last. *)
Fixpoint dict_set {V : Type} (k : string) (v : V) (d : dict V) : dict V :=
  match d with
  | [] => [(k, v)]
  | (k', v') :: d' =>
      if String.eqb k k' then (k', v) :: d' else (k', v') :: dict_set k v d'
  end.

Definition keys {V : Type} (d : dict V) : list string := map fst d.
Definition values {V : Type} (d : dict V) : list V := map snd d.

(** ** Numbers *)

(** [round(x)] of the number [x], as an integer: to nearest, ties to
    even. *)
Definition py_round (x : Q) : Z :=
  let f := Qfloor x in
  match Qcompare (x - inject_Z f) (1 # 2) with
  | Lt => f
  | Gt => f + 1
  | Eq => if Z.even f then f else f + 1
  end.

(** [int(math.ceil(x))] and [int(x)] (truncation toward zero) of the number
    [x]. *)
Definition py_ceil (x : Q) : Z := Qceiling x.
Definition py_int (x : Q) : Z := if Qle_bool 0 x then Qfloor x else Qceiling x.

(** *** Floats

    A [float] is a binary64 number.  The operations are those of [SpecFloat],
    which round to nearest, ties to even. *)
Definition float : Type := spec_float.

Definition fmul : float -> float -> float := SFmul 53 1024.
Definition fdiv : float -> float -> float := SFdiv 53 1024.

(** The float nearest to an integer, and to a rational [n / d]: what a
    float literal, or [float(x)] on a number written out, denotes. *)
Definition float_of_Z (n : Z) : float := binary_normalize 53 1024 n 0 false.

Definition to_float (q : Q) : float :=
  let n := match Qnum q with
           | Z0 => S754_zero false
           | Zpos m => S754_finite false m 0
           | Zneg m => S754_finite true m 0
           end in
  fdiv n (S754_finite false (Qden q) 0).

(** The conversion of an [int] operand of a float operation: it raises
    [OverflowError] when the integer is beyond the range of floats. *)
Definition float_of_int (n : Z) : result float :=
  match float_of_Z n with
  | S754_infinity _ => Raise OverflowError
  | x => Ok x
  end.

(** [n * x] and [n / x] for an [int] [n] and a float [x]. *)
Definition int_times_float (n : Z) (x : float) : result float :=
  a <- float_of_int n ;; Ok (fmul a x).

Definition int_over_float (n : Z) (x : float) : result float :=
  a <- float_of_int n ;; Ok (fdiv a x).

(** The rational that a finite float [(-1)^s * m * 2^e] is. *)
Definition finite_value (s : bool) (m : positive) (e : Z) : Q :=
  let n := if s then Zneg m else Zpos m in
  match e with
  | Zneg p => n # (2 ^ p)
  | _ => inject_Z (n * 2 ^ e)
  end.

(** From a float to an [int]: [OverflowError] on an infinity, [ValueError]
    on a NaN. *)
Definition int_of_float (rnd : Q -> Z) (x : float) : result Z :=
  match x with
  | S754_zero _ => Ok 0
  | S754_finite s m e => Ok (rnd (finite_value s m e))
  | S754_infinity _ => Raise OverflowError
  | S754_nan => Raise ValueError
  end.

(** [int(round(x))], [int(math.ceil(x))] and [int(x)] on a float. *)
Definition float_round : float -> result Z := int_of_float py_round.
Definition float_ceil : float -> result Z := int_of_float py_ceil.
Definition float_trunc : float -> result Z := int_of_float py_int.

(** [math.sqrt]: [ValueError] below zero. *)
Definition math_sqrt (x : float) : result float :=
  match x with
  | S754_finite true _ _ | S754_infinity true => Raise ValueError
  | _ => Ok (SFsqrt 53 1024 x)
  end.

(** [x <= 0] on a float: false on a NaN. *)
Definition float_le_0 (x : float) : bool := SFleb x (S754_zero false).

Fixpoint sumZ (l : list Z) : Z :=
  match l with
  | [] => 0
  | x :: l' => x + sumZ l'
  end.

(** ** The random module *)

(** The generator behind [random]: a state, [random.seed(n)], and the draw
    of an integer below [n] that [randint] is built on. *)
Class RandomSource : Type := {
  rng_state : Type;
  seed_state : Z -> rng_state;
  randbelow : Z -> rng_state -> Z * rng_state;
  randbelow_range : forall n g, 0 < n -> 0 <= fst (randbelow n g) < n
}.

(** A linear congruential generator, used to run the model on concrete
    inputs. *)
Definition lcg_next (g : Z) : Z := (g * 1103515245 + 12345) mod 2147483648.
Definition lcg_below (n : Z) (g : Z) : Z * Z := ((g / 65536) mod n, lcg_next g).

Lemma lcg_below_range : forall n g, 0 < n -> 0 <= fst (lcg_below n g) < n.
Proof. intros n g Hn. unfold lcg_below. simpl. apply Z.mod_pos_bound. exact Hn. Qed.

Definition lcg : RandomSource := {|
  rng_state := Z;
  seed_state := fun s => lcg_next (s mod 2147483648);
  randbelow := lcg_below;
  randbelow_range := lcg_below_range
|}.

(** ** SupplierAgent *)

Record SupplierAgent : Type := {
  supplier_name : string;
  min_order : Z;
  max_supply_per_order : Z;
  lead_time_range : Z * Z;
  fill_rate : float
}.

Definition min_order_qty (self : SupplierAgent) : Z := min_order self.

Definition expected_lead_time_mean (self : SupplierAgent) : result float :=
  int_over_float (fst (lead_time_range self) + snd (lead_time_range self))
                 (to_float 2).

(** ** InventoryItem *)

Record InventoryItem : Type := {
  sku : string;
  name : string;
  stock : Z;
  annual_demand : Q;
  unit_cost : Q;
  holding_cost : Q;
  order_cost : Q;
  max_capacity : Z;
  supplier : SupplierAgent;
  stock_history : list Z;
  demand_history : list Z;
  reorder_history : list Z;
  cost_history : list Q;
  total_ordered : Z;
  total_cost : Q;
  lost_sales : Z
}.

(** [InventoryItem.__init__] *)
Definition new_InventoryItem (sku name : string) (initial_stock : Z)
    (annual_demand unit_cost holding_cost order_cost : Q) (max_capacity : Z)
    (supplier : SupplierAgent) : InventoryItem := {|
  sku := sku; name := name; stock := initial_stock;
  annual_demand := annual_demand; unit_cost := unit_cost;
  holding_cost := holding_cost; order_cost := order_cost;
  max_capacity := max_capacity; supplier := supplier;
  stock_history := []; demand_history := []; reorder_history := [];
  cost_history := []; total_ordered := 0; total_cost := 0; lost_sales := 0
|}.

Definition daily_demand (self : InventoryItem) : Q := annual_demand self / 365.

(** [self.daily_demand = self.annual_demand / 365.0], as the float it is. *)
Definition daily_demand_float (self : InventoryItem) : float :=
  fdiv (to_float (annual_demand self)) (to_float 365).

Definition set_stock (self : InventoryItem) (s : Z) : InventoryItem := {|
  sku := sku self; name := name self; stock := s;
  annual_demand := annual_demand self; unit_cost := unit_cost self;
  holding_cost := holding_cost self; order_cost := order_cost self;
  max_capacity := max_capacity self; supplier := supplier self;
  stock_history := stock_history self; demand_history := demand_history self;
  reorder_history := reorder_history self; cost_history := cost_history self;
  total_ordered := total_ordered self; total_cost := total_cost self;
  lost_sales := lost_sales self
|}.

Definition set_lost_sales (self : InventoryItem) (l : Z) : InventoryItem := {|
  sku := sku self; name := name self; stock := stock self;
  annual_demand := annual_demand self; unit_cost := unit_cost self;
  holding_cost := holding_cost self; order_cost := order_cost self;
  max_capacity := max_capacity self; supplier := supplier self;
  stock_history := stock_history self; demand_history := demand_history self;
  reorder_history := reorder_history self; cost_history := cost_history self;
  total_ordered := total_ordered self; total_cost := total_cost self;
  lost_sales := l
|}.

Definition set_totals (self : InventoryItem) (c : Q) (o : Z) : InventoryItem := {|
  sku := sku self; name := name self; stock := stock self;
  annual_demand := annual_demand self; unit_cost := unit_cost self;
  holding_cost := holding_cost self; order_cost := order_cost self;
  max_capacity := max_capacity self; supplier := supplier self;
  stock_history := stock_history self; demand_history := demand_history self;
  reorder_history := reorder_history self; cost_history := cost_history self;
  total_ordered := o; total_cost := c;
  lost_sales := lost_sales self
|}.

(** [sell]: returns the item after the sale and [(sold, lost)]. *)
Definition sell (self : InventoryItem) (qty : Z) : InventoryItem * (Z * Z) :=
  let sold := Z.min (stock self) qty in
  let self1 := set_stock self (stock self - sold) in
  let lost := qty - sold in
  let self2 := set_lost_sales self1 (lost_sales self1 + lost) in
  (self2, (sold, lost)).

(** [receive]: returns the item after the receipt and [accepted]. *)
Definition receive (self : InventoryItem) (qty : Z) : InventoryItem * Z :=
  let accepted := Z.min qty (Z.max 0 (max_capacity self - stock self)) in
  (set_stock self (stock self + accepted), accepted).

Definition add_cost_for_order (self : InventoryItem) (qty : Z) : InventoryItem :=
  if qty <=? 0 then self
  else set_totals self
         (total_cost self + (order_cost self + inject_Z qty * unit_cost self))
         (total_ordered self + qty).

Definition record_day (self : InventoryItem) (demand requested : Z) : InventoryItem := {|
  sku := sku self; name := name self; stock := stock self;
  annual_demand := annual_demand self; unit_cost := unit_cost self;
  holding_cost := holding_cost self; order_cost := order_cost self;
  max_capacity := max_capacity self; supplier := supplier self;
  stock_history := stock_history self ++ [stock self];
  demand_history := demand_history self ++ [demand];
  reorder_history := reorder_history self ++ [requested];
  cost_history := cost_history self ++ [total_cost self];
  total_ordered := total_ordered self; total_cost := total_cost self;
  lost_sales := lost_sales self
|}.

(** ** Warehouse state *)

Definition Queue : Type := list (Z * Z). (* (arrival_day, qty) *)

(** The mutable state of a [Warehouse].  The strategy of the run is passed
    beside it: a plan function reads the warehouse, so it cannot be one of
    its fields. *)
Record Warehouse : Type := {
  items : dict InventoryItem;
  incoming : dict Queue
}.

Definition new_Warehouse : Warehouse := {| items := []; incoming := [] |}.

Definition register_item (self : Warehouse) (item : InventoryItem) : Warehouse :=
  {| items := dict_set (sku item) item (items self); incoming := incoming self |}.

(** [d.get(k, default)] *)
Definition get_default {V : Type} (d : dict V) (k : string) (default : V) : V :=
  match dict_get k d with
  | Some v => v
  | None => default
  end.

(** A strategy maps the warehouse and the day to a plan [sku -> quantity],
    or raises. *)
Record RestockStrategy : Type := {
  plan : Warehouse -> Z -> result (dict Z)
}.

(** One answer of a supplier, as [_place_orders] receives it.  The list of
    answers is not in the source: it is kept beside the state so that the
    accounting of a run can be stated against what suppliers answered. *)
Record OrderEvent : Type := {
  ev_sku : string;
  ev_day : Z;
  ev_requested : Z;
  ev_accepted : Z;
  ev_arrival : option Z
}.

(** [item = self.items.get(sku)], then [item.receive(qty)] if there is one. *)
Definition credit_arrival (sku : string) (qty : Z) (its : dict InventoryItem)
    : dict InventoryItem :=
  match dict_get sku its with
  | Some item => dict_set sku (fst (receive item qty)) its
  | None => its
  end.

(** [Warehouse._receive_arrivals]: the [while] loop on one SKU's queue,
    which pops the head as long as the head is due. *)
Fixpoint release_due (day : Z) (sku : string) (queue : Queue)
    (its : dict InventoryItem) : Queue * dict InventoryItem :=
  match queue with
  | [] => ([], its)
  | (arrival_day, qty) :: rest =>
      if arrival_day <=? day
      then release_due day sku rest (credit_arrival sku qty its)
      else (queue, its)
  end.

(** The [for] loop over [list(self.incoming.items())]. *)
Fixpoint receive_queues (day : Z) (inc : dict Queue) (its : dict InventoryItem)
    : dict Queue * dict InventoryItem :=
  match inc with
  | [] => ([], its)
  | (sku, queue) :: more =>
      let '(queue', its') := release_due day sku queue its in
      let '(more', its'') := receive_queues day more its' in
      ((sku, queue') :: more', its'')
  end.

Definition _receive_arrivals (self : Warehouse) (day : Z) : Warehouse :=
  let '(inc, its) := receive_queues day (incoming self) (items self) in
  {| items := its; incoming := inc |}.

(** Step 5 of a day: [record_day] on every item. *)
Definition record_all (plan day_demands : dict Z) (its : dict InventoryItem)
    : dict InventoryItem :=
  map (fun '(sku, item) =>
         (sku, record_day item (get_default day_demands sku 0)
                               (get_default plan sku 0))) its.

(** [Warehouse.compute_service_level] *)
Definition total_lost (self : Warehouse) : Z :=
  sumZ (map lost_sales (values (items self))).

Definition total_demand (self : Warehouse) : Z :=
  sumZ (map (fun item => sumZ (demand_history item)) (values (items self))).

Definition compute_service_level (self : Warehouse) : Q :=
  if total_demand self <=? 0 then 1
  else 1 - inject_Z (total_lost self) / inject_Z (total_demand self).

(** [Warehouse.summary] *)
Record SummaryRow : Type := {
  row_sku : string;
  row_name : string;
  row_stock : Z;
  row_total_ordered : Z;
  row_total_cost : Q;
  row_lost_sales : Z
}.

Definition summary (self : Warehouse) : list SummaryRow :=
  map (fun item =>
         {| row_sku := sku item; row_name := name item; row_stock := stock item;
            row_total_ordered := total_ordered item;
            row_total_cost := total_cost item;
            row_lost_sales := lost_sales item |})
      (values (items self)).

Section Engine.

Context {R : RandomSource}.

(** [random.randint(a, b)]: [a + randbelow(b - a + 1)], [ValueError] on an
    empty range. *)
Definition randint (a b : Z) (g : rng_state) : result (Z * rng_state) :=
  if 0 <? b - a + 1 then
    let '(r, g') := randbelow (b - a + 1) g in Ok (a + r, g')
  else Raise ValueError.

(** [SupplierAgent.place_order] *)
Definition place_order (self : SupplierAgent) (sku : string)
    (requested_qty day : Z) (g : rng_state)
    : result ((Z * option Z) * rng_state) :=
  if requested_qty <=? 0 then Ok ((0, None), g)
  else if requested_qty <? min_order self then Ok ((0, None), g)
  else
    let accepted := Z.min requested_qty (max_supply_per_order self) in
    scaled <- int_times_float accepted (fill_rate self) ;;
    accepted <- float_round scaled ;;
    '(lt, g') <- randint (fst (lead_time_range self))
                         (snd (lead_time_range self)) g ;;
    let arrival := day + lt in
    Ok ((accepted, Some arrival), g').

(** The warehouse, the generator of the [random] module, and the answers
    of suppliers so far. *)
Record World : Type := {
  wh : Warehouse;
  gen : rng_state;
  order_log : list OrderEvent
}.

(** [self.incoming[sku].append((arrival, accepted))] on a defaultdict. *)
Definition enqueue (sku : string) (arrival accepted : Z) (inc : dict Queue)
    : dict Queue :=
  dict_set sku (get_default inc sku [] ++ [(arrival, accepted)]) inc.

(** What [_place_orders] does with a supplier's answer. *)
Definition book_order (self : Warehouse) (sku : string) (item : InventoryItem)
    (accepted : Z) (arrival : option Z) : Warehouse :=
  if 0 <? accepted then
    match arrival with
    | Some arr =>
        {| items := dict_set sku (add_cost_for_order item accepted) (items self);
           incoming := enqueue sku arr accepted (incoming self) |}
    | None => self
    end
  else self.

(** [Warehouse._place_orders] *)
Fixpoint _place_orders (plan : dict Z) (day : Z) (w : World) : result World :=
  match plan with
  | [] => Ok w
  | (sku, req) :: rest =>
      if req <=? 0 then _place_orders rest day w
      else
        match dict_get sku (items (wh w)) with
        | None => _place_orders rest day w
        | Some item =>
            '((accepted, arrival), g') <-
               place_order (supplier item) sku req day (gen w) ;;
            _place_orders rest day
              {| wh := book_order (wh w) sku item accepted arrival;
                 gen := g';
                 order_log := order_log w ++
                   [ {| ev_sku := sku; ev_day := day; ev_requested := req;
                        ev_accepted := accepted; ev_arrival := arrival |} ] |}
        end
  end.

(** Step 2 of a day: one demand draw and one [sell] per item, in the order
    of [self.items.values()]. *)
Fixpoint sell_all (its : dict InventoryItem) (day_demands : dict Z)
    (g : rng_state) : result (dict InventoryItem * dict Z * rng_state) :=
  match its with
  | [] => Ok ([], day_demands, g)
  | (k, item) :: rest =>
      '(demand, g1) <- randint 5 15 g ;;
      let item' := fst (sell item demand) in
      '(rest', dd, g2) <-
         sell_all rest (dict_set (sku item) demand day_demands) g1 ;;
      Ok ((k, item') :: rest', dd, g2)
  end.

Variable strategy : RestockStrategy.

(** The body of the [for day in range(...)] loop of [simulate]. *)
Definition simulate_day (day : Z) (w : World) : result World :=
  let wh1 := _receive_arrivals (wh w) day in
  '(its, day_demands, g) <- sell_all (items wh1) [] (gen w) ;;
  let wh2 := {| items := its; incoming := incoming wh1 |} in
  p <- plan strategy wh2 day ;;
  w3 <- _place_orders p day {| wh := wh2; gen := g; order_log := order_log w |} ;;
  Ok {| wh := {| items := record_all p day_demands (items (wh w3));
                 incoming := incoming (wh w3) |};
        gen := gen w3;
        order_log := order_log w3 |}.

Fixpoint simulate_days (n : nat) (day : Z) (w : World) : result World :=
  match n with
  | O => Ok w
  | S n' => w' <- simulate_day day w ;; simulate_days n' (day + 1) w'
  end.

(** [Warehouse.simulate] *)
Definition simulate (days start_day : Z) (seed : option Z) (w : World)
    : result World :=
  let w0 := match seed with
            | Some s => {| wh := wh w; gen := seed_state s;
                           order_log := order_log w |}
            | None => w
            end in
  simulate_days (Z.to_nat days) start_day w0.

End Engine.

Arguments World {R}.

(** ** Strategies *)

(** A [for sku, item in warehouse.items.items()] loop that builds a plan and
    may raise on the way. *)
Fixpoint plan_loop (body : dict Z -> string -> InventoryItem -> result (dict Z))
    (its : dict InventoryItem) (plan : dict Z) : result (dict Z) :=
  match its with
  | [] => Ok plan
  | (sku, item) :: rest =>
      plan' <- body plan sku item ;; plan_loop body rest plan'
  end.

(** [HeuristicStrategy] *)
Record HeuristicStrategy : Type := {
  safety_factor : float;
  weeks : Z
}.

Definition HeuristicStrategy_plan (self : HeuristicStrategy)
    (warehouse : Warehouse) (day : Z) : result (dict Z) :=
  plan_loop
    (fun plan sku item =>
       safety <- float_ceil (fmul (daily_demand_float item) (safety_factor self)) ;;
       whole <- float_trunc (daily_demand_float item) ;;
       if stock item <? whole + safety
       then
         let week := fmul (daily_demand_float item) (to_float 7) in
         weeks <- float_of_int (weeks self) ;;
         q <- float_round (fmul week weeks) ;;
         Ok (dict_set sku q plan)
       else Ok plan)
    (items warehouse) [].

Definition Heuristic (self : HeuristicStrategy) : RestockStrategy :=
  {| plan := HeuristicStrategy_plan self |}.

(** [EOQStrategy] *)
Definition EOQStrategy_plan (warehouse : Warehouse) (day : Z) : result (dict Z) :=
  plan_loop
    (fun plan sku item =>
       let D := to_float (annual_demand item) in
       let S := to_float (order_cost item) in
       let H := to_float (holding_cost item) in
       if float_le_0 D || float_le_0 S || float_le_0 H then Ok plan
       else
         twice <- int_times_float 2 D ;;
         root <- math_sqrt (fdiv (fmul twice S) H) ;;
         q <- float_round root ;;
         mean <- expected_lead_time_mean (supplier item) ;;
         reorder_point <- float_ceil (fmul (daily_demand_float item) mean) ;;
         if stock item <=? reorder_point then Ok (dict_set sku q plan)
         else Ok plan)
    (items warehouse) [].

Definition EOQ : RestockStrategy := {| plan := EOQStrategy_plan |}.

(** [LPStrategy].  The linear program is built as data and handed to the
    solver, which is outside the source and is a parameter here. *)
Inductive LpVariable : Type :=
| Q_ (sku : string)  (* order quantity, lowBound 0 *)
| S_ (sku : string). (* shortage, lowBound 0 *)

Definition LpAffine : Type := (list (Q * LpVariable) * Q)%type. (* terms, constant *)

Inductive LpSense : Type := LpLE | LpGE.

Record LpConstraint : Type := {
  lhs : LpAffine;
  sense : LpSense;
  rhs : Q
}.

Record LpProblem : Type := {
  lp_variables : list LpVariable;
  objective : list (Q * LpVariable);
  constraints : list LpConstraint
}.

Inductive LpStatus : Type :=
| LpStatusOptimal | LpStatusNotSolved | LpStatusInfeasible
| LpStatusUnbounded | LpStatusUndefined.

(** What [prob.solve] leaves behind when it returns: a status, and
    [Q[sku].value()] for each variable ([None] when the solver assigned
    nothing). *)
Record LpSolution : Type := {
  status : LpStatus;
  varValue : LpVariable -> option Q
}.

(** [prob.solve]: it returns, or the solver call raises. *)
Definition LpSolver : Type := LpProblem -> result LpSolution.

Record LPStrategy : Type := {
  shortage_penalty : Q;
  planning_days : Z;
  budget : option Q
}.

(** [sum(qty for (arr_day, qty) in ... if arr_day <= day + planning_days)] *)
Definition incoming_within (self : LPStrategy) (warehouse : Warehouse)
    (sku : string) (day : Z) : Z :=
  sumZ (map snd
          (filter (fun '(arr_day, qty) => arr_day <=? day + planning_days self)
                  (get_default (incoming warehouse) sku []))).

Definition lp_item_constraints (self : LPStrategy) (warehouse : Warehouse)
    (day : Z) (sku : string) (item : InventoryItem) : list LpConstraint :=
  let demand_horizon := (daily_demand item * inject_Z (planning_days self))%Q in
  let ub := Z.min (max_supply_per_order (supplier item))
                  (Z.max 0 (max_capacity item - stock item)) in
  [ {| lhs := ([(1%Q, Q_ sku); ((-1)%Q, S_ sku)],
               inject_Z (stock item + incoming_within self warehouse sku day));
       sense := LpGE; rhs := demand_horizon |};
    {| lhs := ([(1%Q, Q_ sku)], 0%Q); sense := LpLE; rhs := inject_Z ub |} ].

Definition lp_problem (self : LPStrategy) (warehouse : Warehouse) (day : Z)
    : LpProblem :=
  let its := items warehouse in
  {| lp_variables := map (fun '(sku, _) => Q_ sku) its
                     ++ map (fun '(sku, _) => S_ sku) its;
     objective :=
       flat_map (fun '(sku, item) =>
                   [ (unit_cost item, Q_ sku);
                     ((holding_cost item / 2)%Q, Q_ sku);
                     (shortage_penalty self, S_ sku) ]) its;
     constraints :=
       flat_map (fun '(sku, item) =>
                   lp_item_constraints self warehouse day sku item) its
       ++ match budget self with
          | Some b =>
              [ {| lhs := (map (fun '(sku, item) => (unit_cost item, Q_ sku)) its, 0%Q);
                   sense := LpLE; rhs := b |} ]
          | None => []
          end |}.

(** The post-solve loop body.  [item] is the variable left bound by the
    constraint loop above it in the source: the item of the last SKU. *)
Definition lp_round (item : InventoryItem) (qval : option Q) : Z :=
  let q_final := match qval with
                 | Some v => py_round v
                 | None => 0
                 end in
  if (0 <? q_final) && (q_final <? min_order_qty (supplier item))
  then min_order_qty (supplier item)
  else q_final.

Definition LPStrategy_plan (solve : LpSolver) (self : LPStrategy)
    (warehouse : Warehouse) (day : Z) : result (dict Z) :=
  let SKUs := keys (items warehouse) in
  match rev (items warehouse) with
  | [] => Ok []
  | (_, item) :: _ =>
      solution <- solve (lp_problem self warehouse day) ;;
      Ok (fold_left
            (fun plan sku =>
               dict_set sku (lp_round item (varValue solution (Q_ sku))) plan)
            SKUs [])
  end.

Definition LP (solve : LpSolver) (self : LPStrategy) : RestockStrategy :=
  {| plan := LPStrategy_plan solve self |}.

(** * Vocabulary of the statements *)

(** [P] holds of the result of a computation that did not raise. *)
Definition returns {A : Type} (r : result A) (P : A -> Prop) : Prop :=
  match r with
  | Ok a => P a
  | Raise _ => False
  end.

(** A queue in arrival-day order: every entry is due no later than those
    behind it. *)
Inductive by_arrival : Queue -> Prop :=
| by_arrival_nil : by_arrival []
| by_arrival_cons : forall a q rest,
    Forall (fun e => a <= fst e) rest -> by_arrival rest ->
    by_arrival ((a, q) :: rest).

(** Every step of the simulation rewrites items in place: the dictionary
    keeps its keys and their order, and each item is related to what it was.
    [items_rel P] is that relation, for a relation [P] on items. *)
Definition items_rel (P : InventoryItem -> InventoryItem -> Prop)
    (d d' : dict InventoryItem) : Prop :=
  Forall2 (fun e e' => fst e = fst e' /\ P (snd e) (snd e')) d d'.

(** Every pending entry of every SKU satisfies [Qp]. *)
Definition queues_ok (Qp : Z * Z -> Prop) (inc : dict Queue) : Prop :=
  Forall (Forall Qp) (values inc).

(** No pending arrival carries a negative quantity. *)
Definition pending_nonneg (self : Warehouse) : Prop :=
  queues_ok (fun e => 0 <= snd e) (incoming self).

(** A relation [P] on items that every step of a simulated day respects,
    given that the pending entries satisfy [Qp]. *)
Record step_closed (Qp : Z * Z -> Prop)
    (P : InventoryItem -> InventoryItem -> Prop) : Prop := {
  sc_refl : forall x, P x x;
  sc_trans : forall x y z, P x y -> P y z -> P x z;
  sc_enqueue : forall arrival accepted, 0 < accepted -> Qp (arrival, accepted);
  sc_receive : forall it e, Qp e -> P it (fst (receive it (snd e)));
  sc_sell : forall it d, 5 <= d <= 15 -> P it (fst (sell it d));
  sc_order : forall it q, 0 < q -> P it (add_cost_for_order it q);
  sc_record : forall it d r, P it (record_day it d r)
}.

(** The stock of an item, and every stock it has recorded, lies between 0
    and its capacity. *)
Definition item_bounds (it : InventoryItem) : Prop :=
  0 <= stock it <= max_capacity it
  /\ Forall (fun s => 0 <= s <= max_capacity it) (stock_history it).

(** An item is registered under its own SKU, has a non-negative stock, and
    has lost no more than the demand it has recorded. *)
Definition demand_accounted (k : string) (it : InventoryItem) : Prop :=
  k = sku it
  /\ 0 <= stock it
  /\ 0 <= lost_sales it <= sumZ (demand_history it).

(** The same in the middle of a day, when the day's demand is in
    [day_demands] and not yet in [demand_history]. *)
Definition demand_pending (dd : dict Z) (k : string) (it : InventoryItem) : Prop :=
  k = sku it
  /\ 0 <= stock it
  /\ 0 <= lost_sales it
  /\ lost_sales it <= sumZ (demand_history it) + get_default dd k 0.

(** The item dictionary is a dictionary (no key twice) of items accounted
    as above. *)
Definition accounted (self : Warehouse) : Prop :=
  NoDup (keys (items self))
  /\ Forall (fun e => demand_accounted (fst e) (snd e)) (items self).







(** The exceptions of a run, besides those of the strategy, are the
    [ValueError] of [random.randint] on a lead-time range with [low > high]
    and what [int(round(accepted * fill_rate))] raises in [place_order].
    [valid_lead_time] rules out the first.  [fills] rules out the second: it
    asks that the scaling returns on every quantity the supplier can be
    asked to scale, which are the requests capped at
    [max_supply_per_order]. *)
Definition valid_lead_time (it : InventoryItem) : Prop :=
  fst (lead_time_range (supplier it)) <= snd (lead_time_range (supplier it)).

Definition fills (self : SupplierAgent) : Prop :=
  forall m,
    Z.min 1 (max_supply_per_order self) <= m <= max_supply_per_order self ->
    exists accepted,
      (scaled <- int_times_float m (fill_rate self) ;; float_round scaled)
      = Ok accepted.

Definition answers (it : InventoryItem) : Prop :=
  valid_lead_time it /\ fills (supplier it).

(** The strategy returns a plan on every warehouse and day. *)
Definition never_raises (strategy : RestockStrategy) : Prop :=
  forall warehouse day, exists p, plan strategy warehouse day = Ok p.

(** The value of an affine expression, and the truth of a constraint, under
    an assignment of the variables. *)
Definition lp_eval (a : LpVariable -> Q) (e : LpAffine) : Q :=
  fold_right (fun t acc => (fst t * a (snd t) + acc)%Q) (snd e) (fst e).

Definition lp_holds (a : LpVariable -> Q) (c : LpConstraint) : Prop :=
  match sense c with
  | LpLE => (lp_eval a (lhs c) <= rhs c)%Q
  | LpGE => (rhs c <= lp_eval a (lhs c))%Q
  end.

(** An assignment within the bounds of the variables that meets every
    constraint. *)
Definition lp_feasible (p : LpProblem) : Prop :=
  exists a : LpVariable -> Q,
    Forall (fun v => (0 <= a v)%Q) (lp_variables p)
    /\ Forall (lp_holds a) (constraints p).

(** The head of a queue, if any, is not due on [day]. *)
Definition head_not_due (day : Z) (queue : Queue) : Prop :=
  match queue with
  | [] => True
  | e :: _ => day < fst e
  end.

(** A pending entry of [sku] as an order of [day] leaves it: a positive
    quantity, due within the lead-time range of the supplier of the item. *)
Definition placed_on (day : Z) (its : dict InventoryItem) (sku : string)
    (e : Z * Z) : Prop :=
  0 < snd e
  /\ exists item,
       dict_get sku its = Some item
       /\ day + fst (lead_time_range (supplier item)) <= fst e
          <= day + snd (lead_time_range (supplier item)).

(** [it'] has the identity and the parameters of [it]. *)
Definition same_config (it it' : InventoryItem) : Prop :=
  sku it' = sku it /\ name it' = name it
  /\ annual_demand it' = annual_demand it
  /\ unit_cost it' = unit_cost it /\ holding_cost it' = holding_cost it
  /\ order_cost it' = order_cost it
  /\ max_capacity it' = max_capacity it /\ supplier it' = supplier it.

(** The running counters of [it'] are those of [it] or more. *)
Definition counters_grow (it it' : InventoryItem) : Prop :=
  order_cost it' = order_cost it /\ unit_cost it' = unit_cost it
  /\ lost_sales it <= lost_sales it'
  /\ total_ordered it <= total_ordered it'
  /\ ((0 <= order_cost it)%Q -> (0 <= unit_cost it)%Q ->
      (total_cost it <= total_cost it')%Q).

(** [it'] is [it] with [n] more days recorded. *)
Definition recorded (n : nat) (it it' : InventoryItem) : Prop :=
  exists sh dh rh ch,
    stock_history it' = stock_history it ++ sh
    /\ demand_history it' = demand_history it ++ dh
    /\ reorder_history it' = reorder_history it ++ rh
    /\ cost_history it' = cost_history it ++ ch
    /\ List.length sh = n /\ List.length dh = n
    /\ List.length rh = n /\ List.length ch = n
    /\ (n <> 0%nat -> last sh 0 = stock it' /\ last ch 0%Q = total_cost it').

Definition same_histories (it it' : InventoryItem) : Prop :=
  stock_history it' = stock_history it
  /\ demand_history it' = demand_history it
  /\ reorder_history it' = reorder_history it
  /\ cost_history it' = cost_history it.

(** Items are held under their own SKU, each once: what [register_item]
    builds. *)
Definition registered (its : dict InventoryItem) : Prop :=
  NoDup (keys its) /\ Forall (fun e => fst e = sku (snd e)) its.

(** [register_item] on each item of a list, in order. *)
Definition register_all (its : list InventoryItem) (self : Warehouse) : Warehouse :=
  fold_left register_item its self.

Definition demand_in_range (it : InventoryItem) : Prop :=
  Forall (fun d => 5 <= d <= 15) (demand_history it).

(** * Concrete configurations *)

Section Configurations.

Local Open Scope string_scope.

(** The suppliers and the catalogue of [main.py]. *)
Definition supplier_fast : SupplierAgent :=
  {| supplier_name := "FastSup"; min_order := 10; max_supply_per_order := 500;
     lead_time_range := (1, 3); fill_rate := to_float (98 # 100) |}.

Definition supplier_slow : SupplierAgent :=
  {| supplier_name := "SlowSup"; min_order := 20; max_supply_per_order := 300;
     lead_time_range := (4, 7); fill_rate := to_float (9 # 10) |}.

Definition build_warehouse : Warehouse :=
  let wh := new_Warehouse in
  let wh := register_item wh
    (new_InventoryItem "S1" "Soap" 150 1200 10 (15 # 10) 20 1000 supplier_fast) in
  let wh := register_item wh
    (new_InventoryItem "S2" "Shampoo" 120 1500 25 3 40 800 supplier_fast) in
  let wh := register_item wh
    (new_InventoryItem "B1" "Biscuits" 200 2000 5 (8 # 10) 15 1500 supplier_slow) in
  let wh := register_item wh
    (new_InventoryItem "T1" "Toothpaste" 100 1000 12 (18 # 10) 30 700 supplier_fast) in
  wh.

(** The supplier and the two items of [test.py]. *)
Definition test_supplier : SupplierAgent :=
  {| supplier_name := "TestSup"; min_order := 5; max_supply_per_order := 200;
     lead_time_range := (1, 2); fill_rate := to_float 1 |}.

Definition build_small_warehouse : Warehouse :=
  let wh := new_Warehouse in
  let wh := register_item wh
    (new_InventoryItem "X1" "ItemX" 50 365 10 1 10 500 test_supplier) in
  let wh := register_item wh
    (new_InventoryItem "X2" "ItemY" 30 365 5 (1 # 2) 8 300 test_supplier) in
  wh.

(** A world on the linear congruential source, before any order. *)
Definition lcg_world (self : Warehouse) (g : Z) : @World lcg :=
  {| wh := self; gen := (g : @rng_state lcg); order_log := [] |}.

Definition start_world (self : Warehouse) : @World lcg := lcg_world self 0.

(** Toothpaste out of stock, with the pending queue left by an order on
    day 10 with lead time 3 and an order on day 11 with lead time 1. *)
Definition toothpaste : InventoryItem :=
  new_InventoryItem "T1" "Toothpaste" 0 1000 12 (18 # 10) 30 700 supplier_fast.

Definition crossed_arrivals : Warehouse :=
  {| items := [("T1", toothpaste)];
     incoming := [("T1", [(13, 37); (12, 37)])] |}.

(** The catalogue of [main.py] with Biscuits down to 150 and Shampoo at
    120, and the values that cover the 30-day demand of each item: nothing
    for S1 and T1, 240/73 for S2, 1050/73 for B1. *)
Definition low_biscuits : Warehouse :=
  let wh := new_Warehouse in
  let wh := register_item wh
    (new_InventoryItem "S1" "Soap" 150 1200 10 (15 # 10) 20 1000 supplier_fast) in
  let wh := register_item wh
    (new_InventoryItem "S2" "Shampoo" 120 1500 25 3 40 800 supplier_fast) in
  let wh := register_item wh
    (new_InventoryItem "B1" "Biscuits" 150 2000 5 (8 # 10) 15 1500 supplier_slow) in
  let wh := register_item wh
    (new_InventoryItem "T1" "Toothpaste" 100 1000 12 (18 # 10) 30 700 supplier_fast) in
  wh.

Definition lp_main : LPStrategy :=
  {| shortage_penalty := 150; planning_days := 30; budget := None |}.

Definition covering_solution : LpSolver := fun _ =>
  Ok {| status := LpStatusOptimal;
        varValue := fun v =>
          match v with
          | Q_ sku => if String.eqb sku "S2" then Some (240 # 73)
                      else if String.eqb sku "B1" then Some (1050 # 73)
                      else Some 0%Q
          | S_ _ => Some 0%Q
          end |}.



(** A solver call that raises. *)
Definition solver_fails : LpSolver := fun _ => Raise PulpSolverError.

(** The first item of [test.py]. *)
Definition item_x1 : InventoryItem :=
  new_InventoryItem "X1" "ItemX" 50 365 10 1 10 500 test_supplier.

(** A supplier that delivers one unit in a hundred. *)
Definition supplier_trickle : SupplierAgent :=
  {| supplier_name := "Trickle"; min_order := 5; max_supply_per_order := 200;
     lead_time_range := (1, 5); fill_rate := to_float (1 # 100) |}.

Definition item_trickle : InventoryItem :=
  new_InventoryItem "X1" "ItemX" 50 365 10 1 10 500 supplier_trickle.

(** The heuristic strategy of [test.py]. *)
Definition test_heuristic : RestockStrategy :=
  Heuristic {| safety_factor := to_float (2 # 10); weeks := 1 |}.

(** A supplier whose lead-time range is written backwards. *)
Definition supplier_backwards : SupplierAgent :=
  {| supplier_name := "Backwards"; min_order := 5; max_supply_per_order := 200;
     lead_time_range := (3, 1); fill_rate := to_float 1 |}.

(** A solver that assigns 3 to every variable. *)
Definition always_three : LpSolver := fun _ =>
  Ok {| status := LpStatusOptimal; varValue := fun _ => Some 3%Q |}.

(** An item with a daily demand of 100 and a stock of 107, and a heuristic
    strategy with a safety factor of 0.07: in binary64 the safety stock
    [100.0 * 0.07] is a little over 7. *)
Definition item_hundred_a_day : InventoryItem :=
  new_InventoryItem "H1" "Hundred" 107 36500 10 1 10 5000 test_supplier.

Definition heuristic_seven_percent : HeuristicStrategy :=
  {| safety_factor := to_float (7 # 100); weeks := 1 |}.

(** An item with an annual demand of 12118 and a stock of 250, supplied with
    a lead time of 6 to 9 days: in binary64 the demand over the mean lead
    time, [12118 / 365.0 * 7.5], is a little over 249. *)
Definition supplier_week : SupplierAgent :=
  {| supplier_name := "Week"; min_order := 10; max_supply_per_order := 1000;
     lead_time_range := (6, 9); fill_rate := to_float 1 |}.

Definition item_reorder_250 : InventoryItem :=
  new_InventoryItem "E1" "Reorder" 250 12118 12 (18 # 10) 30 5000 supplier_week.

End Configurations.

(** * Properties *)

Ltac inv H := inversion H; subst; clear H.

(** ** Dictionaries *)

Lemma dict_get_set_same {V : Type} (k : string) (v : V) (d : dict V) :
  dict_get k (dict_set k v d) = Some v.
Proof.
  induction d as [|[k' v'] d IH]; simpl.
  - now rewrite String.eqb_refl.
  - destruct (String.eqb k k') eqn:E; simpl; rewrite E; auto.
Qed.

Lemma dict_get_set_other {V : Type} (k k' : string) (v : V) (d : dict V) :
  k <> k' -> dict_get k' (dict_set k v d) = dict_get k' d.
Proof.
  intros Hne. induction d as [|[k0 v0] d IH]; simpl.
  - destruct (String.eqb k' k) eqn:E; auto.
    apply String.eqb_eq in E. congruence.
  - destruct (String.eqb k k0) eqn:E; simpl.
    + apply String.eqb_eq in E. subst k0.
      destruct (String.eqb k' k) eqn:E'; auto.
      apply String.eqb_eq in E'. congruence.
    + now rewrite IH.
Qed.

Lemma dict_get_In {V : Type} (k : string) (v : V) (d : dict V) :
  dict_get k d = Some v -> In v (values d).
Proof.
  induction d as [|[k' v'] d IH]; simpl; [discriminate|].
  destruct (String.eqb k k'); intros H.
  - left. congruence.
  - right. auto.
Qed.

Lemma dict_set_values_Forall {V : Type} (P : V -> Prop) (k : string) (v : V)
    (d : dict V) :
  Forall P (values d) -> P v -> Forall P (values (dict_set k v d)).
Proof.
  intros Hd Hv. induction d as [|[k' v'] d IH]; simpl.
  - constructor; auto.
  - inversion Hd; subst. destruct (String.eqb k k'); simpl; constructor; auto.
Qed.

Lemma dict_set_keys_present {V : Type} (k : string) (v v0 : V) (d : dict V) :
  dict_get k d = Some v0 -> keys (dict_set k v d) = keys d.
Proof.
  induction d as [|[k' v'] d IH]; simpl; [discriminate|].
  destruct (String.eqb k k') eqn:E; simpl; intros H; auto.
  f_equal. auto.
Qed.

Lemma dict_get_None_notin {V : Type} (k : string) (d : dict V) :
  dict_get k d = None <-> ~ In k (keys d).
Proof.
  induction d as [|[k' v'] d IH]; simpl.
  - split; auto.
  - destruct (String.eqb k k') eqn:E.
    + apply String.eqb_eq in E. subst. split; [discriminate|]. intros H. exfalso. auto.
    + apply String.eqb_neq in E. rewrite IH. split.
      * intros H [H1|H1]; auto.
      * intros H H1. apply H. auto.
Qed.

(** ** SupplierAgent.place_order *)

Section PlaceOrder.

Context {R : RandomSource}.

Lemma randint_ok (a b : Z) (g : rng_state) :
  a <= b ->
  randint a b g = Ok (a + fst (randbelow (b - a + 1) g),
                      snd (randbelow (b - a + 1) g))
  /\ a <= a + fst (randbelow (b - a + 1) g) <= b.
Proof.
  intros Hab. unfold randint.
  assert (Hw : 0 < b - a + 1) by lia.
  pose proof (randbelow_range (b - a + 1) g Hw) as Hr.
  destruct (0 <? b - a + 1) eqn:E; [|apply Z.ltb_ge in E; lia].
  destruct (randbelow (b - a + 1) g) as [r g']. simpl in *.
  split; [reflexivity | lia].
Qed.

Lemma randint_range (a b d : Z) (g g' : rng_state) :
  randint a b g = Ok (d, g') -> a <= d <= b.
Proof.
  unfold randint. destruct (0 <? b - a + 1) eqn:E; [|discriminate].
  apply Z.ltb_lt in E. pose proof (randbelow_range (b - a + 1) g E) as Hr.
  destruct (randbelow (b - a + 1) g) as [r g1]. simpl in Hr.
  intros H. inversion H; subst. lia.
Qed.

Lemma randint_empty (a b : Z) (g : rng_state) :
  b < a -> randint a b g = Raise ValueError.
Proof.
  intros Hab. unfold randint.
  destruct (0 <? b - a + 1) eqn:E; [apply Z.ltb_lt in E; lia | reflexivity].
Qed.

Lemma place_order_rejected (self : SupplierAgent) (sku : string)
    (requested_qty day : Z) (g : rng_state) :
  requested_qty <= 0 \/ requested_qty < min_order self ->
  place_order self sku requested_qty day g = Ok ((0, None), g).
Proof.
  intros H. unfold place_order.
  destruct (requested_qty <=? 0) eqn:E1; [reflexivity|].
  destruct (requested_qty <? min_order self) eqn:E2; [reflexivity|].
  apply Z.leb_gt in E1. apply Z.ltb_ge in E2. lia.
Qed.

Lemma place_order_accepted (self : SupplierAgent) (sku : string)
    (requested_qty day : Z) (g : rng_state) :
  0 < requested_qty -> min_order self <= requested_qty ->
  place_order self sku requested_qty day g =
    (scaled <- int_times_float (Z.min requested_qty (max_supply_per_order self))
                               (fill_rate self) ;;
     accepted <- float_round scaled ;;
     '(lt, g') <- randint (fst (lead_time_range self))
                          (snd (lead_time_range self)) g ;;
     Ok ((accepted, Some (day + lt)), g')).
Proof.
  intros H1 H2. unfold place_order.
  destruct (requested_qty <=? 0) eqn:E1; [apply Z.leb_le in E1; lia|].
  destruct (requested_qty <? min_order self) eqn:E2; [apply Z.ltb_lt in E2; lia|].
  reflexivity.
Qed.

(** C6.  [place_order] returns [(0, None)] exactly when the requested
    quantity is non-positive or below [min_order], and then draws nothing;
    otherwise, on a lead-time range with [low <= high], it returns the
    capped quantity scaled by [fill_rate] and rounded, as
    [int(round(accepted * fill_rate))] computes it in binary64, with
    [arrival_day = day + lead_time] where [lead_time] is the one draw
    [randint(low, high)], which lies in [low, high]; it raises where the
    product or the rounding does. *)
Theorem place_order_contract (self : SupplierAgent) (sku : string)
    (requested_qty day : Z) (g : rng_state) :
  (requested_qty <= 0 \/ requested_qty < min_order self ->
     place_order self sku requested_qty day g = Ok ((0, None), g))
  /\ (forall g', place_order self sku requested_qty day g = Ok ((0, None), g') ->
        requested_qty <= 0 \/ requested_qty < min_order self)
  /\ (~ (requested_qty <= 0 \/ requested_qty < min_order self) ->
      fst (lead_time_range self) <= snd (lead_time_range self) ->
      exists lead_time g',
        randint (fst (lead_time_range self)) (snd (lead_time_range self)) g
          = Ok (lead_time, g')
        /\ fst (lead_time_range self) <= lead_time <= snd (lead_time_range self)
        /\ place_order self sku requested_qty day g =
             (scaled <- int_times_float
                          (Z.min requested_qty (max_supply_per_order self))
                          (fill_rate self) ;;
              accepted <- float_round scaled ;;
              Ok ((accepted, Some (day + lead_time)), g'))).
Proof.
  split; [apply place_order_rejected|]. split.
  - intros g' H.
    destruct (Z_le_gt_dec requested_qty 0) as [Hle|Hgt]; [now left|].
    destruct (Z_lt_ge_dec requested_qty (min_order self)) as [Hlt|Hge]; [now right|].
    exfalso. rewrite place_order_accepted in H by lia.
    destruct (int_times_float _ _) as [scaled|e]; cbn [bind] in H; [|discriminate].
    destruct (float_round scaled) as [accepted|e]; cbn [bind] in H; [|discriminate].
    destruct (randint _ _ g) as [[lt g1]|e]; cbn [bind] in H; discriminate.
  - intros Hacc Hrange.
    destruct (randint_ok _ _ g Hrange) as [Hdraw Hin].
    eexists. eexists. split; [exact Hdraw|]. split; [exact Hin|].
    rewrite place_order_accepted by lia. rewrite Hdraw.
    destruct (int_times_float _ _) as [scaled|e]; cbn [bind]; [|reflexivity].
    destruct (float_round scaled) as [accepted|e]; reflexivity.
Qed.

(** C10.  A request that passes the MOQ gate but is scaled down to zero
    returns [(0, arrival_day)] with an arrival day, after exactly one
    lead-time draw; [_place_orders] then goes on with the rest of the plan
    on an unchanged warehouse (nothing enqueued, no cost added), with the
    generator one draw further. *)
Theorem place_order_zero_fill (self : SupplierAgent) (sku : string)
    (requested_qty day : Z) (w : World) (item : InventoryItem)
    (rest : dict Z) :
  0 < requested_qty ->
  min_order self <= requested_qty ->
  (scaled <- int_times_float (Z.min requested_qty (max_supply_per_order self))
                             (fill_rate self) ;;
   float_round scaled) = Ok 0 ->
  fst (lead_time_range self) <= snd (lead_time_range self) ->
  dict_get sku (items (wh w)) = Some item ->
  supplier item = self ->
  let low := fst (lead_time_range self) in
  let high := snd (lead_time_range self) in
  let draw := randbelow (high - low + 1) (gen w) in
  let arrival_day := day + (low + fst draw) in
  low <= low + fst draw <= high
  /\ place_order self sku requested_qty day (gen w)
       = Ok ((0, Some arrival_day), snd draw)
  /\ _place_orders ((sku, requested_qty) :: rest) day w
       = _place_orders rest day
           {| wh := wh w;
              gen := snd draw;
              order_log := order_log w ++
                [ {| ev_sku := sku; ev_day := day;
                     ev_requested := requested_qty;
                     ev_accepted := 0;
                     ev_arrival := Some arrival_day |} ] |}.
Proof.
  intros Hpos Hmoq Hzero Hrange Hitem Hsup low high draw arrival_day.
  destruct (randint_ok low high (gen w) Hrange) as [Hdraw Hin].
  assert (Hpo : place_order self sku requested_qty day (gen w)
                = Ok ((0, Some arrival_day), snd draw)).
  { rewrite place_order_accepted by lia. fold low high. rewrite Hdraw.
    destruct (int_times_float _ _) as [scaled|e]; cbn [bind] in Hzero |- *;
      [|discriminate].
    rewrite Hzero. reflexivity. }
  split; [exact Hin|]. split; [exact Hpo|].
  simpl. destruct (requested_qty <=? 0) eqn:E; [apply Z.leb_le in E; lia|].
  rewrite Hitem, Hsup, Hpo. simpl. reflexivity.
Qed.

End PlaceOrder.

(** ** InventoryItem.sell and InventoryItem.receive *)

Lemma sell_fields (self : InventoryItem) (qty : Z) :
  let self' := fst (sell self qty) in
  stock self' = stock self - Z.min (stock self) qty
  /\ lost_sales self' = lost_sales self + (qty - Z.min (stock self) qty)
  /\ snd (sell self qty) = (Z.min (stock self) qty, qty - Z.min (stock self) qty)
  /\ max_capacity self' = max_capacity self
  /\ stock_history self' = stock_history self
  /\ demand_history self' = demand_history self
  /\ total_ordered self' = total_ordered self
  /\ total_cost self' = total_cost self
  /\ order_cost self' = order_cost self
  /\ unit_cost self' = unit_cost self
  /\ supplier self' = supplier self
  /\ sku self' = sku self.
Proof. cbv zeta. unfold sell. simpl. repeat split. Qed.

Lemma receive_fields (self : InventoryItem) (qty : Z) :
  let self' := fst (receive self qty) in
  stock self' = stock self + Z.min qty (Z.max 0 (max_capacity self - stock self))
  /\ snd (receive self qty) = Z.min qty (Z.max 0 (max_capacity self - stock self))
  /\ lost_sales self' = lost_sales self
  /\ max_capacity self' = max_capacity self
  /\ stock_history self' = stock_history self
  /\ demand_history self' = demand_history self
  /\ total_ordered self' = total_ordered self
  /\ total_cost self' = total_cost self
  /\ order_cost self' = order_cost self
  /\ unit_cost self' = unit_cost self
  /\ supplier self' = supplier self
  /\ sku self' = sku self.
Proof. cbv zeta. unfold receive. simpl. repeat split. Qed.

(** The stock bounds are kept by a sale and by a receipt of a non-negative
    quantity. *)
Lemma sell_stock_bounds (self : InventoryItem) (qty : Z) :
  0 <= qty -> 0 <= stock self <= max_capacity self ->
  0 <= stock (fst (sell self qty)) <= max_capacity (fst (sell self qty)).
Proof. unfold sell. simpl. lia. Qed.

Lemma receive_stock_bounds (self : InventoryItem) (qty : Z) :
  0 <= qty -> 0 <= stock self <= max_capacity self ->
  0 <= stock (fst (receive self qty)) <= max_capacity (fst (receive self qty)).
Proof. unfold receive. simpl. lia. Qed.

(** C7, as the code has it.  A negative quantity is not rejected: [receive]
    returns it as accepted and lowers the stock by its magnitude; [sell], on
    a non-negative stock, returns it as sold with nothing lost and raises the
    stock by its magnitude, [lost_sales] unchanged.  Neither touches
    [total_ordered] or [total_cost]. *)
Theorem negative_quantity_accepted (self : InventoryItem) (qty : Z) :
  qty < 0 ->
  (snd (receive self qty) = qty
   /\ stock (fst (receive self qty)) = stock self + qty
   /\ lost_sales (fst (receive self qty)) = lost_sales self
   /\ total_ordered (fst (receive self qty)) = total_ordered self
   /\ total_cost (fst (receive self qty)) = total_cost self)
  /\ (0 <= stock self ->
      snd (sell self qty) = (qty, 0)
      /\ stock (fst (sell self qty)) = stock self - qty
      /\ lost_sales (fst (sell self qty)) = lost_sales self
      /\ total_ordered (fst (sell self qty)) = total_ordered self
      /\ total_cost (fst (sell self qty)) = total_cost self).
Proof.
  intros Hneg. split.
  - unfold receive. simpl.
    replace (Z.min qty (Z.max 0 (max_capacity self - stock self))) with qty by lia.
    repeat split.
  - intros Hstock. unfold sell. simpl.
    replace (Z.min (stock self) qty) with qty by lia.
    repeat split; try lia. f_equal. lia.
Qed.

(** ** Warehouse._receive_arrivals *)

(** The loop stops at the first entry that is not due, whatever follows it. *)
Lemma release_due_head_blocks (day : Z) (sku : string) (arrival_day qty : Z)
    (rest : Queue) (its : dict InventoryItem) :
  day < arrival_day ->
  release_due day sku ((arrival_day, qty) :: rest) its
    = ((arrival_day, qty) :: rest, its).
Proof.
  intros H. simpl. destruct (arrival_day <=? day) eqn:E; [|reflexivity].
  apply Z.leb_le in E. lia.
Qed.

Lemma filter_none {A : Type} (f : A -> bool) (l : list A) :
  Forall (fun x => f x = false) l -> filter f l = [].
Proof.
  induction 1 as [|x l Hx Hl IH]; simpl; [reflexivity|]. now rewrite Hx.
Qed.

Lemma filter_all {A : Type} (f : A -> bool) (l : list A) :
  Forall (fun x => f x = true) l -> filter f l = l.
Proof.
  induction 1 as [|x l Hx Hl IH]; simpl; [reflexivity|]. now rewrite Hx, IH.
Qed.

(** X8.  On a queue in arrival-day order the loop does release every due
    entry: the entries that are not due stay, the due ones are credited in
    order. *)
Lemma release_due_sorted (day : Z) (sku : string) (queue : Queue) :
  by_arrival queue ->
  forall its,
    release_due day sku queue its
    = (filter (fun e => day <? fst e) queue,
       fold_left (fun its e => credit_arrival sku (snd e) its)
                 (filter (fun e => fst e <=? day) queue) its).
Proof.
  induction 1 as [|a q rest Hle Hs IH]; intros its; simpl.
  - reflexivity.
  - destruct (a <=? day) eqn:E.
    + rewrite IH. apply Z.leb_le in E.
      destruct (day <? a) eqn:E'; [apply Z.ltb_lt in E'; lia|]. reflexivity.
    + apply Z.leb_gt in E.
      destruct (day <? a) eqn:E'; [|apply Z.ltb_ge in E'; lia].
      rewrite filter_all, filter_none; [reflexivity| |].
      * eapply Forall_impl; [|exact Hle]. simpl. intros e He.
        apply Z.leb_gt. lia.
      * eapply Forall_impl; [|exact Hle]. simpl. intros e He.
        apply Z.ltb_lt. lia.
Qed.

(** ** Item-wise relations between two states of the item dictionary *)

Section Pointwise.

Variable P : InventoryItem -> InventoryItem -> Prop.
Hypothesis P_refl : forall x, P x x.
Hypothesis P_trans : forall x y z, P x y -> P y z -> P x z.

Lemma items_rel_refl (d : dict InventoryItem) : items_rel P d d.
Proof. induction d; constructor; auto. Qed.

Lemma items_rel_trans (d1 d2 d3 : dict InventoryItem) :
  items_rel P d1 d2 -> items_rel P d2 d3 -> items_rel P d1 d3.
Proof.
  intros H12. revert d3. induction H12 as [|e1 e2 d1 d2 [Hk Hp] H12 IH];
    intros d3 H23; inversion H23 as [|e2' e3 d2' d3' [Hk' Hp'] H23']; subst;
    constructor.
  - split; [congruence | eauto].
  - apply IH. exact H23'.
Qed.

Lemma items_rel_set (k : string) (v v' : InventoryItem) (d : dict InventoryItem) :
  dict_get k d = Some v -> P v v' -> items_rel P d (dict_set k v' d).
Proof.
  intros Hget Hp. induction d as [|[k0 v0] d IH]; simpl in *; [discriminate|].
  destruct (String.eqb k k0).
  - inv Hget. constructor; [split; auto | apply items_rel_refl].
  - constructor; [split; auto | apply IH; exact Hget].
Qed.

Lemma items_rel_get (k : string) (v : InventoryItem) (d d' : dict InventoryItem) :
  items_rel P d d' -> dict_get k d = Some v ->
  exists v', dict_get k d' = Some v' /\ P v v'.
Proof.
  induction 1 as [|[k1 v1] [k2 v2] d d' [Hk Hp] Hrel IH]; simpl in *;
    [discriminate|].
  subst k2. destruct (String.eqb k k1); intros Hget.
  - inv Hget. eauto.
  - auto.
Qed.

Lemma items_rel_keys (d d' : dict InventoryItem) :
  items_rel P d d' -> keys d' = keys d.
Proof.
  induction 1 as [|e e' d d' [Hk Hp] Hrel IH]; simpl; [reflexivity|].
  now rewrite Hk, IH.
Qed.

(** *** Arrivals *)

(** [Qp] is what is known of the pending entries. *)
Variable Qp : Z * Z -> Prop.
Hypothesis P_receive : forall it e, Qp e -> P it (fst (receive it (snd e))).

Lemma release_due_rel (day : Z) (sku : string) (queue : Queue) :
  Forall Qp queue ->
  forall its, items_rel P its (snd (release_due day sku queue its)).
Proof.
  induction 1 as [|[a q] rest Hq Hrest IH]; intros its; simpl.
  - apply items_rel_refl.
  - destruct (a <=? day); [|apply items_rel_refl].
    eapply items_rel_trans; [|apply IH].
    unfold credit_arrival.
    destruct (dict_get sku its) as [item|] eqn:Hget.
    + eapply items_rel_set; [exact Hget|]. exact (P_receive item (a, q) Hq).
    + apply items_rel_refl.
Qed.

Lemma receive_queues_rel (day : Z) (inc : dict Queue) :
  queues_ok Qp inc ->
  forall its, items_rel P its (snd (receive_queues day inc its)).
Proof.
  unfold queues_ok.
  induction inc as [|[sku queue] more IH]; intros Hok its; simpl.
  - apply items_rel_refl.
  - inv Hok.
    pose proof (release_due_rel day sku queue H1 its) as Hr.
    destruct (release_due day sku queue its) as [queue' its'].
    specialize (IH H2 its').
    destruct (receive_queues day more its') as [more' its''].
    simpl in *. eapply items_rel_trans; eauto.
Qed.

(** *** Sales *)

Context {R : RandomSource}.

Hypothesis P_sell : forall it d, 5 <= d <= 15 -> P it (fst (sell it d)).

Lemma sell_all_rel (its : dict InventoryItem) :
  forall dd g its' dd' g',
    sell_all its dd g = Ok (its', dd', g') -> items_rel P its its'.
Proof.
  induction its as [|[k item] rest IH]; intros dd g its' dd' g' H;
    cbn [sell_all bind] in H.
  - inv H. constructor.
  - destruct (randint 5 15 g) as [[d g1]|e] eqn:Hdraw; cbn [bind] in H;
      [|discriminate].
    apply randint_range in Hdraw.
    destruct (sell_all rest _ _) as [[[rest' dd1] g2]|e] eqn:Hrec;
      cbn [bind] in H; [|discriminate].
    inv H. constructor; [split | eapply IH; exact Hrec].
    + reflexivity.
    + exact (P_sell item d Hdraw).
Qed.

(** *** Orders *)

Hypothesis P_order : forall it q, 0 < q -> P it (add_cost_for_order it q).

Lemma book_order_rel (self : Warehouse) (sku : string) (item : InventoryItem)
    (accepted : Z) (arrival : option Z) :
  dict_get sku (items self) = Some item ->
  items_rel P (items self) (items (book_order self sku item accepted arrival)).
Proof.
  intros Hget. unfold book_order.
  destruct (0 <? accepted) eqn:E; [|apply items_rel_refl].
  destruct arrival; [|apply items_rel_refl]. simpl.
  apply Z.ltb_lt in E. eapply items_rel_set; eauto.
Qed.

Lemma place_orders_rel (p : dict Z) (day : Z) :
  forall w w', _place_orders p day w = Ok w' ->
               items_rel P (items (wh w)) (items (wh w')).
Proof.
  induction p as [|[sku req] rest IH]; intros w w' H; simpl in H.
  - inv H. apply items_rel_refl.
  - destruct (req <=? 0); [eauto|].
    destruct (dict_get sku (items (wh w))) as [item|] eqn:Hget; [|eauto].
    destruct (place_order _ _ _ _ _) as [[[accepted arrival] g1]|e];
      simpl in H; [|discriminate].
    apply IH in H. simpl in H.
    eapply items_rel_trans; [|exact H]. now apply book_order_rel.
Qed.

(** *** Recording *)

Hypothesis P_record : forall it d r, P it (record_day it d r).

Lemma record_all_rel (p dd : dict Z) (its : dict InventoryItem) :
  items_rel P its (record_all p dd its).
Proof.
  induction its as [|[k item] rest IH]; simpl; constructor.
  - split; [reflexivity | apply P_record].
  - exact IH.
Qed.

End Pointwise.

(** ** Pending arrivals *)

Lemma release_due_queue (Qp : Z * Z -> Prop) (day : Z) (sku : string)
    (queue : Queue) :
  Forall Qp queue ->
  forall its, Forall Qp (fst (release_due day sku queue its)).
Proof.
  induction 1 as [|[a q] rest Hq Hrest IH]; intros its; simpl.
  - constructor.
  - destruct (a <=? day); [apply IH|]. simpl. constructor; auto.
Qed.

Lemma receive_queues_ok (Qp : Z * Z -> Prop) (day : Z) (inc : dict Queue) :
  queues_ok Qp inc ->
  forall its, queues_ok Qp (fst (receive_queues day inc its)).
Proof.
  unfold queues_ok.
  induction inc as [|[sku queue] more IH]; intros Hok its; simpl.
  - constructor.
  - inv Hok.
    pose proof (release_due_queue Qp day sku queue H1 its) as Hq.
    destruct (release_due day sku queue its) as [queue' its'].
    specialize (IH H2 its').
    destruct (receive_queues day more its') as [more' its''].
    simpl in *. constructor; auto.
Qed.

Lemma queues_ok_True (inc : dict Queue) : queues_ok (fun _ => True) inc.
Proof.
  unfold queues_ok. apply Forall_forall. intros q _.
  apply Forall_forall. auto.
Qed.

Lemma get_default_queue_ok (Qp : Z * Z -> Prop) (inc : dict Queue) (sku : string) :
  queues_ok Qp inc -> Forall Qp (get_default inc sku []).
Proof.
  unfold queues_ok, get_default. intros Hok.
  destruct (dict_get sku inc) as [q|] eqn:E; [|constructor].
  apply dict_get_In in E. rewrite Forall_forall in Hok. auto.
Qed.

Lemma receive_arrivals_fields (self : Warehouse) (day : Z) :
  items (_receive_arrivals self day)
    = snd (receive_queues day (incoming self) (items self))
  /\ incoming (_receive_arrivals self day)
    = fst (receive_queues day (incoming self) (items self)).
Proof.
  unfold _receive_arrivals.
  destruct (receive_queues day (incoming self) (items self)) as [inc its].
  split; reflexivity.
Qed.

Lemma receive_arrivals_queues (Qp : Z * Z -> Prop) (self : Warehouse) (day : Z) :
  queues_ok Qp (incoming self) ->
  queues_ok Qp (incoming (_receive_arrivals self day)).
Proof.
  intros H. rewrite (proj2 (receive_arrivals_fields self day)).
  now apply receive_queues_ok.
Qed.

Section Run.

Context {R : RandomSource}.

Section Queues.

Variable Qp : Z * Z -> Prop.
Hypothesis Qp_enqueue : forall arrival accepted, 0 < accepted -> Qp (arrival, accepted).

Lemma enqueue_ok (sku : string) (arrival accepted : Z) (inc : dict Queue) :
  0 < accepted ->
  queues_ok Qp inc ->
  queues_ok Qp (enqueue sku arrival accepted inc).
Proof.
  intros Hpos Hok. unfold enqueue, queues_ok.
  apply dict_set_values_Forall; [exact Hok|].
  apply Forall_app. split.
  - now apply get_default_queue_ok.
  - constructor; [now apply Qp_enqueue | constructor].
Qed.

Lemma book_order_queues (self : Warehouse) (sku : string)
    (item : InventoryItem) (accepted : Z) (arrival : option Z) :
  queues_ok Qp (incoming self) ->
  queues_ok Qp (incoming (book_order self sku item accepted arrival)).
Proof.
  intros H. unfold book_order.
  destruct (0 <? accepted) eqn:E; [|exact H].
  destruct arrival; [|exact H].
  apply Z.ltb_lt in E. simpl. now apply enqueue_ok.
Qed.

Lemma place_orders_queues (p : dict Z) (day : Z) :
  forall w w', queues_ok Qp (incoming (wh w)) -> _place_orders p day w = Ok w' ->
               queues_ok Qp (incoming (wh w')).
Proof.
  induction p as [|[sku req] rest IH]; intros w w' Hok H; cbn [_place_orders] in H.
  - inv H. exact Hok.
  - destruct (req <=? 0); [eauto|].
    destruct (dict_get sku (items (wh w))) as [item|] eqn:Hget; [|eauto].
    destruct (place_order _ _ _ _ _) as [[[accepted arrival] g1]|e];
      cbn [bind] in H; [|discriminate].
    eapply IH; [|exact H]. simpl. now apply book_order_queues.
Qed.

End Queues.

Variable strategy : RestockStrategy.

(** What a day is made of, once it has run to its end. *)
Lemma simulate_day_inv (day : Z) (w w' : World) :
  simulate_day strategy day w = Ok w' ->
  exists its dd g p w3,
    sell_all (items (_receive_arrivals (wh w) day)) [] (gen w) = Ok (its, dd, g)
    /\ plan strategy {| items := its;
                        incoming := incoming (_receive_arrivals (wh w) day) |} day
         = Ok p
    /\ _place_orders p day
         {| wh := {| items := its;
                     incoming := incoming (_receive_arrivals (wh w) day) |};
            gen := g; order_log := order_log w |} = Ok w3
    /\ w' = {| wh := {| items := record_all p dd (items (wh w3));
                        incoming := incoming (wh w3) |};
               gen := gen w3; order_log := order_log w3 |}.
Proof.
  unfold simulate_day. cbv zeta.
  destruct (sell_all _ _ _) as [[[its dd] g]|e] eqn:Hs; cbn [bind];
    [|discriminate].
  destruct (plan strategy _ day) as [p|e] eqn:Hplan; cbn [bind];
    [|discriminate].
  destruct (_place_orders p day _) as [w3|e] eqn:Hp; cbn [bind]; [|discriminate].
  intros H. inv H. exists its, dd, g, p, w3. repeat split; auto.
Qed.

Section Closed.

Variable Qp : Z * Z -> Prop.
Variable P : InventoryItem -> InventoryItem -> Prop.
Hypothesis HP : step_closed Qp P.

Lemma simulate_day_rel (day : Z) (w w' : World) :
  queues_ok Qp (incoming (wh w)) ->
  simulate_day strategy day w = Ok w' ->
  items_rel P (items (wh w)) (items (wh w')) /\ queues_ok Qp (incoming (wh w')).
Proof.
  intros Hpend H. destruct HP as [Hrefl Htrans Henq Hrecv Hsell Hord Hrec].
  apply simulate_day_inv in H.
  destruct H as (its & dd & g & p & w3 & Hs & Hplan & Hp & ->).
  pose proof (receive_arrivals_fields (wh w) day) as [Hi Hq].
  split.
  - assert (H1 : items_rel P (items (wh w)) (items (_receive_arrivals (wh w) day))).
    { rewrite Hi. apply (receive_queues_rel P Hrefl Htrans Qp); auto. }
    assert (H2 : items_rel P (items (_receive_arrivals (wh w) day)) its).
    { eapply sell_all_rel; eauto. }
    assert (H3 : items_rel P its (items (wh w3))).
    { apply (place_orders_rel P Hrefl Htrans Hord) in Hp. exact Hp. }
    assert (H4 : items_rel P (items (wh w3)) (record_all p dd (items (wh w3)))).
    { apply record_all_rel; auto. }
    simpl.
    eapply items_rel_trans; [exact Htrans | exact H1 |].
    eapply items_rel_trans; [exact Htrans | exact H2 |].
    eapply items_rel_trans; [exact Htrans | exact H3 | exact H4].
  - apply (place_orders_queues Qp Henq) in Hp.
    + exact Hp.
    + simpl. now apply receive_arrivals_queues.
Qed.

Lemma simulate_days_rel (n : nat) :
  forall (day : Z) (w w' : World),
    queues_ok Qp (incoming (wh w)) ->
    simulate_days strategy n day w = Ok w' ->
    items_rel P (items (wh w)) (items (wh w')) /\ queues_ok Qp (incoming (wh w')).
Proof.
  induction n as [|n IH]; intros day w w' Hpend H; cbn [simulate_days] in H.
  - inv H. split; [apply items_rel_refl; apply HP | exact Hpend].
  - destruct (simulate_day strategy day w) as [w1|e] eqn:Hday;
      cbn [bind] in H; [|discriminate].
    apply simulate_day_rel in Hday; [|exact Hpend].
    destruct Hday as [Hrel1 Hpend1].
    destruct (IH _ _ _ Hpend1 H) as [Hrel2 Hpend2].
    split; [|exact Hpend2].
    eapply items_rel_trans; [apply HP | exact Hrel1 | exact Hrel2].
Qed.

Lemma simulate_rel (days start_day : Z) (seed : option Z) (w w' : World) :
  queues_ok Qp (incoming (wh w)) ->
  simulate strategy days start_day seed w = Ok w' ->
  items_rel P (items (wh w)) (items (wh w')) /\ queues_ok Qp (incoming (wh w')).
Proof.
  unfold simulate. intros Hpend H.
  apply simulate_days_rel in H; [|destruct seed; exact Hpend].
  destruct seed; exact H.
Qed.

End Closed.

End Run.

Lemma items_rel_Forall (P : InventoryItem -> InventoryItem -> Prop)
    (J J' : InventoryItem -> Prop) (d d' : dict InventoryItem) :
  (forall x y, P x y -> J x -> J' y) ->
  items_rel P d d' -> Forall J (values d) -> Forall J' (values d').
Proof.
  intros HJ. induction 1 as [|e e' d d' [Hk Hp] Hrel IH]; simpl; intros HF.
  - constructor.
  - inv HF. constructor; eauto.
Qed.

(** ** Stock bounds *)

Lemma add_cost_for_order_fields (self : InventoryItem) (qty : Z) :
  let self' := add_cost_for_order self qty in
  stock self' = stock self
  /\ lost_sales self' = lost_sales self
  /\ max_capacity self' = max_capacity self
  /\ stock_history self' = stock_history self
  /\ demand_history self' = demand_history self
  /\ order_cost self' = order_cost self
  /\ unit_cost self' = unit_cost self
  /\ supplier self' = supplier self
  /\ sku self' = sku self.
Proof.
  cbv zeta. unfold add_cost_for_order. destruct (qty <=? 0); simpl; repeat split.
Qed.

Lemma bounds_step_closed :
  step_closed (fun e => 0 <= snd e)
              (fun it it' => item_bounds it -> item_bounds it').
Proof.
  constructor; unfold item_bounds.
  - auto.
  - auto.
  - intros arrival accepted Hpos. simpl. lia.
  - intros it [a q] Hq [Hs Hh]. simpl in Hq.
    destruct (receive_fields it q) as (E1 & _ & _ & E2 & E3 & _).
    simpl snd. rewrite E1, E2, E3. split; [lia | exact Hh].
  - intros it d Hd [Hs Hh].
    destruct (sell_fields it d) as (E1 & _ & _ & E2 & E3 & _).
    rewrite E1, E2, E3. split; [lia | exact Hh].
  - intros it q Hq [Hs Hh].
    destruct (add_cost_for_order_fields it q) as (E1 & _ & E2 & E3 & _).
    rewrite E1, E2, E3. split; assumption.
  - intros it d r [Hs Hh]. simpl. split; [exact Hs|].
    apply Forall_app. split; [exact Hh|]. constructor; [exact Hs | constructor].
Qed.

(** Inside a day: the bounds hold after the arrivals, after the sales and
    after the orders, not only when the day is recorded. *)
Lemma stock_bounds_within_day {R : RandomSource} (strategy : RestockStrategy)
    (day : Z) (w w' : World) :
  Forall item_bounds (values (items (wh w))) ->
  pending_nonneg (wh w) ->
  simulate_day strategy day w = Ok w' ->
  exists its dd g p w3,
    sell_all (items (_receive_arrivals (wh w) day)) [] (gen w) = Ok (its, dd, g)
    /\ _place_orders p day
         {| wh := {| items := its;
                     incoming := incoming (_receive_arrivals (wh w) day) |};
            gen := g; order_log := order_log w |} = Ok w3
    /\ Forall item_bounds (values (items (_receive_arrivals (wh w) day)))
    /\ Forall item_bounds (values its)
    /\ Forall item_bounds (values (items (wh w3))).
Proof.
  intros Hb Hpend H. apply simulate_day_inv in H.
  destruct H as (its & dd & g & p & w3 & Hs & Hplan & Hp & ->).
  exists its, dd, g, p, w3.
  destruct bounds_step_closed as [Hrefl Htrans Henq Hrecv Hsell Hord Hrec].
  assert (Hkeep : forall x y : InventoryItem,
             (item_bounds x -> item_bounds y) -> item_bounds x -> item_bounds y)
    by auto.
  assert (H1 : Forall item_bounds (values (items (_receive_arrivals (wh w) day)))).
  { eapply items_rel_Forall; [exact Hkeep| |exact Hb].
    rewrite (proj1 (receive_arrivals_fields (wh w) day)).
    apply (receive_queues_rel _ Hrefl Htrans _ Hrecv). exact Hpend. }
  assert (H2 : Forall item_bounds (values its)).
  { eapply items_rel_Forall; [exact Hkeep| |exact H1].
    eapply sell_all_rel; [exact Hsell | exact Hs]. }
  assert (H3 : Forall item_bounds (values (items (wh w3)))).
  { eapply items_rel_Forall; [exact Hkeep| |exact H2].
    apply (place_orders_rel _ Hrefl Htrans Hord) in Hp. exact Hp. }
  repeat split; assumption.
Qed.

(** C4.  A run of [simulate] that starts with every item's stock (and
    recorded stocks) within [0, max_capacity], and with no negative pending
    quantity, ends with every item's stock within [0, max_capacity] and every
    entry of its [stock_history] within [0, max_capacity].  The two
    operations that change the stock keep the bounds on their own
    ([sell_stock_bounds], [receive_stock_bounds]). *)
Theorem simulate_stock_bounds {R : RandomSource} (strategy : RestockStrategy)
    (days start_day : Z) (seed : option Z) (w w' : World) :
  Forall item_bounds (values (items (wh w))) ->
  pending_nonneg (wh w) ->
  simulate strategy days start_day seed w = Ok w' ->
  Forall (fun it => 0 <= stock it <= max_capacity it
                    /\ Forall (fun s => 0 <= s <= max_capacity it)
                              (stock_history it))
         (values (items (wh w'))).
Proof.
  intros Hb Hpend Hrun.
  destruct (simulate_rel strategy _ _ bounds_step_closed _ _ _ _ _ Hpend Hrun)
    as [Hrel _].
  eapply items_rel_Forall; [|exact Hrel|exact Hb].
  intros x y Hxy Hx. exact (Hxy Hx).
Qed.

(** ** Lost sales against recorded demand *)

Lemma items_rel_Forall_entries (P : InventoryItem -> InventoryItem -> Prop)
    (J J' : string -> InventoryItem -> Prop) (d d' : dict InventoryItem) :
  (forall k x y, P x y -> J k x -> J' k y) ->
  items_rel P d d' ->
  Forall (fun e => J (fst e) (snd e)) d -> Forall (fun e => J' (fst e) (snd e)) d'.
Proof.
  intros HJ. induction 1 as [|e e' d d' [Hk Hp] Hrel IH]; intros HF.
  - constructor.
  - inv HF. constructor; [rewrite <- Hk; eauto | auto].
Qed.

Lemma sumZ_app (l1 l2 : list Z) : sumZ (l1 ++ l2) = sumZ l1 + sumZ l2.
Proof. induction l1 as [|x l1 IH]; simpl; lia. Qed.

Section Demand.

Context {R : RandomSource}.

Lemma sell_all_demand (its : dict InventoryItem) :
  NoDup (keys its) ->
  Forall (fun e => demand_accounted (fst e) (snd e)) its ->
  forall dd g its' dd' g',
    sell_all its dd g = Ok (its', dd', g') ->
    Forall (fun e => demand_pending dd' (fst e) (snd e)) its'
    /\ (forall k, ~ In k (keys its) -> dict_get k dd' = dict_get k dd).
Proof.
  induction its as [|[k item] rest IH]; intros Hnd HJ dd g its' dd' g' H;
    cbn [sell_all bind] in H.
  - inv H. split; [constructor | reflexivity].
  - destruct (randint 5 15 g) as [[d g1]|e] eqn:Hdraw; cbn [bind] in H;
      [|discriminate].
    apply randint_range in Hdraw.
    destruct (sell_all rest _ _) as [[[rest' dd1] g2]|e] eqn:Hrec;
      cbn [bind] in H; [|discriminate].
    injection H as <- <- <-.
    simpl in Hnd. inversion Hnd as [|k0 ks Hnotin Hnd']; subst.
    inversion HJ as [|e0 es Hhead Htail]; subst.
    destruct (IH Hnd' Htail _ _ _ _ _ Hrec) as [Hrest Hdd].
    destruct Hhead as (Hk & Hstock & Hlost). simpl in Hk, Hstock, Hlost.
    assert (Hd : dict_get k dd1 = Some d).
    { rewrite (Hdd k Hnotin). rewrite <- Hk. apply dict_get_set_same. }
    split.
    + constructor; [|exact Hrest].
      unfold demand_pending, get_default. simpl. rewrite Hd.
      repeat split; try lia. exact Hk.
    + intros k' Hnot. simpl in Hnot.
      rewrite Hdd by tauto.
      apply dict_get_set_other. rewrite <- Hk. tauto.
Qed.

Lemma record_all_accounted (p dd : dict Z) (its : dict InventoryItem) :
  Forall (fun e => demand_pending dd (fst e) (snd e)) its ->
  Forall (fun e => demand_accounted (fst e) (snd e)) (record_all p dd its).
Proof.
  induction 1 as [|[k it] rest (Hk & Hs & Hl0 & Hl) Hrest IH]; simpl.
  - constructor.
  - constructor; [|exact IH].
    unfold demand_accounted. simpl in *. rewrite sumZ_app. simpl.
    repeat split; try assumption; lia.
Qed.

Variable strategy : RestockStrategy.

Lemma simulate_day_accounted (day : Z) (w w' : World) :
  accounted (wh w) -> pending_nonneg (wh w) ->
  simulate_day strategy day w = Ok w' ->
  accounted (wh w') /\ pending_nonneg (wh w').
Proof.
  intros [Hnd HJ] Hpend H.
  pose proof H as Hday.
  apply (simulate_day_rel strategy (fun e => 0 <= snd e) (fun _ _ => True))
    in Hday; [|constructor; auto; intros; simpl; lia|exact Hpend].
  destruct Hday as [Hkeys Hpend']. apply items_rel_keys in Hkeys.
  split; [|exact Hpend'].
  apply simulate_day_inv in H.
  destruct H as (its & dd & g & p & w3 & Hs & Hplan & Hp & ->).
  split; [simpl in *; rewrite Hkeys; exact Hnd|].
  simpl.
  (* arrivals *)
  pose proof (receive_arrivals_fields (wh w) day) as [Hi _].
  set (Pa := fun it it' : InventoryItem =>
               sku it' = sku it /\ lost_sales it' = lost_sales it
               /\ demand_history it' = demand_history it
               /\ (0 <= stock it -> 0 <= stock it')).
  assert (Hrefl : forall x, Pa x x) by (unfold Pa; auto).
  assert (Htrans : forall x y z, Pa x y -> Pa y z -> Pa x z).
  { unfold Pa. intros x y z (A1 & A2 & A3 & A4) (B1 & B2 & B3 & B4).
    repeat split; try congruence. auto. }
  assert (H1 : items_rel Pa (items (wh w)) (items (_receive_arrivals (wh w) day))).
  { rewrite Hi.
    apply (receive_queues_rel Pa Hrefl Htrans (fun e => 0 <= snd e)); auto.
    intros it [a q] Hq. unfold Pa. simpl in Hq.
    destruct (receive_fields it q) as (E1 & _ & E2 & _ & _ & E3 & _ & _ & _ & _ & _ & E4).
    simpl snd. rewrite E1, E2, E3, E4. repeat split. lia. }
  assert (HJ1 : Forall (fun e => demand_accounted (fst e) (snd e))
                       (items (_receive_arrivals (wh w) day))).
  { eapply items_rel_Forall_entries; [|exact H1|exact HJ].
    unfold Pa, demand_accounted. intros k x y (A1 & A2 & A3 & A4) (B1 & B2 & B3).
    rewrite A1, A2, A3. auto. }
  (* sales *)
  assert (Hnd1 : NoDup (keys (items (_receive_arrivals (wh w) day)))).
  { rewrite (items_rel_keys _ _ _ H1). exact Hnd. }
  destruct (sell_all_demand _ Hnd1 HJ1 _ _ _ _ _ Hs) as [HJ2 _].
  (* orders *)
  set (Pc := fun it it' : InventoryItem =>
               sku it' = sku it /\ lost_sales it' = lost_sales it
               /\ demand_history it' = demand_history it
               /\ stock it' = stock it).
  assert (H3 : items_rel Pc its (items (wh w3))).
  { apply (place_orders_rel Pc) in Hp; [exact Hp| | |].
    - unfold Pc; auto.
    - unfold Pc. intros x y z (A1 & A2 & A3 & A4) (B1 & B2 & B3 & B4).
      repeat split; congruence.
    - intros it q Hq. unfold Pc.
      destruct (add_cost_for_order_fields it q) as (E1 & E2 & _ & _ & E3 & _ & _ & _ & E4).
      auto. }
  apply record_all_accounted.
  eapply items_rel_Forall_entries; [|exact H3|exact HJ2].
  unfold Pc, demand_pending. intros k x y (A1 & A2 & A3 & A4) (B1 & B2 & B3 & B4).
  rewrite A1, A2, A3, A4. auto.
Qed.

Lemma simulate_days_accounted (n : nat) :
  forall (day : Z) (w w' : World),
    accounted (wh w) -> pending_nonneg (wh w) ->
    simulate_days strategy n day w = Ok w' ->
    accounted (wh w') /\ pending_nonneg (wh w').
Proof.
  induction n as [|n IH]; intros day w w' Hacc Hpend H; cbn [simulate_days] in H.
  - inv H. auto.
  - destruct (simulate_day strategy day w) as [w1|e] eqn:Hday;
      cbn [bind] in H; [|discriminate].
    apply simulate_day_accounted in Hday; auto.
    destruct Hday as [Hacc1 Hpend1]. eauto.
Qed.

End Demand.

(** ** Warehouse.compute_service_level *)

Lemma totals_range (its : list InventoryItem) :
  Forall (fun it => 0 <= lost_sales it <= sumZ (demand_history it)) its ->
  0 <= sumZ (map lost_sales its)
    <= sumZ (map (fun it => sumZ (demand_history it)) its).
Proof.
  induction 1 as [|it its Hit Hits IH]; simpl; lia.
Qed.

Lemma service_level_of_ratio (lost demand : Z) :
  0 <= lost <= demand -> 0 < demand ->
  (0 <= 1 - inject_Z lost / inject_Z demand <= 1)%Q.
Proof.
  intros [H0 H1] Hd.
  assert (Hd' : (0 < inject_Z demand)%Q).
  { change 0%Q with (inject_Z 0). now rewrite <- Zlt_Qlt. }
  assert (Hlo : (0 <= inject_Z lost / inject_Z demand)%Q).
  { apply Qle_shift_div_l; [exact Hd'|]. rewrite Qmult_0_l.
    change 0%Q with (inject_Z 0). now rewrite <- Zle_Qle. }
  assert (Hhi : (inject_Z lost / inject_Z demand <= 1)%Q).
  { apply Qle_shift_div_r; [exact Hd'|]. rewrite Qmult_1_l.
    now rewrite <- Zle_Qle. }
  split; lra.
Qed.

(** C9.  After a run of [simulate] that starts from registered items with
    non-negative stock and lost sales within their recorded demand (as
    [register_item] and the constructor leave them),
    [compute_service_level] is [1 - total_lost / total_demand], the totals
    taken over all items and all recorded days; it lies in [0, 1] when the
    total demand is positive, and is exactly 1 when the total demand is
    zero. *)
Theorem service_level_range {R : RandomSource} (strategy : RestockStrategy)
    (days start_day : Z) (seed : option Z) (w w' : World) :
  accounted (wh w) ->
  pending_nonneg (wh w) ->
  simulate strategy days start_day seed w = Ok w' ->
  (0 < total_demand (wh w') ->
     compute_service_level (wh w')
       = (1 - inject_Z (sumZ (map lost_sales (values (items (wh w')))))
              / inject_Z (sumZ (map (fun it => sumZ (demand_history it))
                                    (values (items (wh w'))))))%Q
     /\ (0 <= compute_service_level (wh w') <= 1)%Q)
  /\ (total_demand (wh w') = 0 -> compute_service_level (wh w') = 1%Q).
Proof.
  intros Hacc Hpend Hrun. unfold simulate in Hrun.
  apply simulate_days_accounted in Hrun;
    [| destruct seed; exact Hacc | destruct seed; exact Hpend].
  destruct Hrun as [[_ HJ] _].
  assert (Hrange : 0 <= total_lost (wh w') <= total_demand (wh w')).
  { unfold total_lost, total_demand. apply totals_range.
    unfold values. rewrite Forall_map.
    eapply Forall_impl; [|exact HJ]. intros e (_ & _ & Hl). exact Hl. }
  split.
  - intros Hpos. unfold compute_service_level.
    destruct (total_demand (wh w') <=? 0) eqn:E; [apply Z.leb_le in E; lia|].
    split; [reflexivity|]. now apply service_level_of_ratio.
  - intros Hzero. unfold compute_service_level. rewrite Hzero. reflexivity.
Qed.

(** ** Order accounting *)










Section Accounting.

Context {R : RandomSource}.




Variable strategy : RestockStrategy.


End Accounting.



(** ** Reproducibility *)

(** With [seed] given, [random.seed(seed)] replaces whatever state the
    generator was in. *)
Lemma simulate_seeded {R : RandomSource} (strategy : RestockStrategy)
    (days start_day s : Z) (w : World) :
  simulate strategy days start_day (Some s) w
  = simulate_days strategy (Z.to_nat days) start_day
      {| wh := wh w; gen := seed_state s; order_log := order_log w |}.
Proof. reflexivity. Qed.

(** C8.  Two runs of [simulate] with the same strategy, number of days,
    start day and seed, from the same warehouse state (items with their
    suppliers, pending arrivals), give the same result whatever state the
    random generator was in before each run: the same items, hence the same
    [stock_history], [demand_history], [reorder_history] and [cost_history]
    for every item. *)
Theorem simulate_reproducible {R : RandomSource} (strategy : RestockStrategy)
    (days start_day s : Z) (self : Warehouse) (log : list OrderEvent)
    (g1 g2 : rng_state) :
  simulate strategy days start_day (Some s)
    {| wh := self; gen := g1; order_log := log |}
  = simulate strategy days start_day (Some s)
      {| wh := self; gen := g2; order_log := log |}.
Proof. rewrite !simulate_seeded. reflexivity. Qed.

(** ** Runs that end *)

Lemma same_supplier_step_closed :
  step_closed (fun _ => True) (fun it it' => supplier it' = supplier it).
Proof.
  constructor; auto.
  - intros x y z H1 H2. congruence.
  - intros it q _. unfold add_cost_for_order. destruct (q <=? 0); reflexivity.
Qed.

Lemma same_supplier_valid (d d' : dict InventoryItem) :
  items_rel (fun it it' => supplier it' = supplier it) d d' ->
  Forall answers (values d) -> Forall answers (values d').
Proof.
  apply items_rel_Forall. unfold answers, valid_lead_time. intros x y Hxy Hx.
  now rewrite Hxy.
Qed.

Section Returns.

Context {R : RandomSource}.

Lemma sell_all_returns (its : dict InventoryItem) :
  forall dd g, exists its' dd' g', sell_all its dd g = Ok (its', dd', g').
Proof.
  induction its as [|[k item] rest IH]; intros dd g; cbn [sell_all].
  - eauto.
  - destruct (randint_ok 5 15 g) as [Hdraw _]; [lia|].
    rewrite Hdraw. cbn [bind].
    destruct (IH (dict_set (sku item) (5 + fst (randbelow (15 - 5 + 1) g)) dd)
                 (snd (randbelow (15 - 5 + 1) g))) as (rest' & dd' & g' & Hrest).
    rewrite Hrest. cbn [bind]. eauto.
Qed.

Lemma place_order_returns (self : SupplierAgent) (sku : string)
    (requested_qty day : Z) (g : rng_state) :
  fst (lead_time_range self) <= snd (lead_time_range self) ->
  fills self ->
  exists r, place_order self sku requested_qty day g = Ok r.
Proof.
  intros Hrange Hfills. unfold place_order.
  destruct (requested_qty <=? 0) eqn:E; [eauto|].
  destruct (requested_qty <? min_order self); [eauto|].
  apply Z.leb_gt in E.
  destruct (Hfills (Z.min requested_qty (max_supply_per_order self)))
    as (accepted & Hacc); [lia|].
  destruct (int_times_float _ _) as [scaled|e]; cbn [bind] in Hacc |- *;
    [|discriminate].
  rewrite Hacc. cbn [bind].
  destruct (randint_ok _ _ g Hrange) as [Hdraw _]. rewrite Hdraw. cbn [bind].
  eauto.
Qed.

Lemma place_orders_returns (p : dict Z) (day : Z) :
  forall w, Forall answers (values (items (wh w))) ->
            exists w', _place_orders p day w = Ok w'.
Proof.
  induction p as [|[sku req] rest IH]; intros w Hvalid; cbn [_place_orders].
  - eauto.
  - destruct (req <=? 0); [eauto|].
    destruct (dict_get sku (items (wh w))) as [item|] eqn:Hget; [|eauto].
    assert (Hitem : answers item).
    { apply dict_get_In in Hget. rewrite Forall_forall in Hvalid. auto. }
    destruct (place_order_returns (supplier item) sku req day (gen w)
                (proj1 Hitem) (proj2 Hitem))
      as ([[accepted arrival] g1] & Hpo).
    rewrite Hpo. cbn [bind]. apply IH. simpl.
    eapply same_supplier_valid; [|exact Hvalid].
    apply book_order_rel; try (intros; congruence); auto.
    intros it q _. unfold add_cost_for_order. destruct (q <=? 0); reflexivity.
Qed.

Variable strategy : RestockStrategy.
Hypothesis strategy_total : never_raises strategy.

Lemma simulate_day_returns (day : Z) (w : World) :
  Forall answers (values (items (wh w))) ->
  exists w', simulate_day strategy day w = Ok w'.
Proof.
  intros Hvalid. unfold simulate_day. cbv zeta.
  destruct (sell_all_returns (items (_receive_arrivals (wh w) day)) [] (gen w))
    as (its & dd & g & Hs).
  rewrite Hs. cbn [bind].
  destruct (strategy_total
              {| items := its;
                 incoming := incoming (_receive_arrivals (wh w) day) |} day)
    as (p & Hp).
  rewrite Hp. cbn [bind].
  destruct (place_orders_returns p day
              {| wh := {| items := its;
                          incoming := incoming (_receive_arrivals (wh w) day) |};
                 gen := g; order_log := order_log w |}) as (w3 & Hw3).
  - simpl. destruct same_supplier_step_closed
      as [Hrefl Htrans _ Hrecv Hsell _ _].
    assert (H1 : items_rel (fun it it' => supplier it' = supplier it)
                   (items (wh w)) (items (_receive_arrivals (wh w) day))).
    { rewrite (proj1 (receive_arrivals_fields (wh w) day)).
      apply (receive_queues_rel _ Hrefl Htrans (fun _ => True) Hrecv).
      apply queues_ok_True. }
    assert (H2 : items_rel (fun it it' => supplier it' = supplier it)
                   (items (_receive_arrivals (wh w) day)) its).
    { eapply sell_all_rel; [exact Hsell | exact Hs]. }
    eapply same_supplier_valid; [|exact Hvalid].
    eapply items_rel_trans; [exact Htrans | exact H1 | exact H2].
  - rewrite Hw3. cbn [bind]. eauto.
Qed.

Lemma simulate_days_returns (n : nat) :
  forall (day : Z) (w : World),
    Forall answers (values (items (wh w))) ->
    exists w', simulate_days strategy n day w = Ok w'.
Proof.
  induction n as [|n IH]; intros day w Hvalid; cbn [simulate_days].
  - eauto.
  - destruct (simulate_day_returns day w Hvalid) as (w1 & Hday).
    rewrite Hday. cbn [bind]. apply IH.
    destruct (simulate_day_rel strategy _ _ same_supplier_step_closed
                day w w1 (queues_ok_True _) Hday) as [Hrel _].
    eapply same_supplier_valid; eauto.
Qed.

(** X24.  A run whose strategy does not raise, on items whose suppliers
    have [low <= high] and a fill rate that scales every quantity up to
    [max_supply_per_order] without an overflow or a NaN, ends without an
    exception, for any number of days, seed and generator state. *)
Lemma simulate_returns (days start_day : Z) (seed : option Z) (w : World) :
  Forall answers (values (items (wh w))) ->
  exists w', simulate strategy days start_day seed w = Ok w'.
Proof.
  intros Hvalid. unfold simulate. apply simulate_days_returns.
  destruct seed; exact Hvalid.
Qed.

End Returns.

(** ** Warehouses as the constructors leave them *)

Lemma dict_set_keys_NoDup {V : Type} (k : string) (v : V) (d : dict V) :
  NoDup (keys d) -> NoDup (keys (dict_set k v d)).
Proof.
  intros Hnd.
  destruct (dict_get k d) as [v0|] eqn:Hget.
  - now rewrite (dict_set_keys_present k v v0 d Hget).
  - apply dict_get_None_notin in Hget.
    induction d as [|[k' v'] d IH]; simpl in *.
    + constructor; [intros []|constructor].
    + destruct (String.eqb k k') eqn:E.
      * apply String.eqb_eq in E. subst. exfalso. auto.
      * inversion Hnd as [|x l Hnotin Hnd']; subst. simpl.
        assert (Hk : ~ In k (keys d)) by tauto.
        specialize (IH Hnd' Hk).
        constructor; [|exact IH].
        clear IH. intros Hin. apply Hnotin.
        clear Hnotin Hnd Hnd'. apply String.eqb_neq in E.
        induction d as [|[k0 v0] d IHd]; simpl in *.
        -- destruct Hin as [Hin|[]]. congruence.
        -- destruct (String.eqb k k0) eqn:E0; simpl in Hin.
           ++ exact Hin.
           ++ destruct Hin as [Hin|Hin]; [now left|].
              right. apply IHd; tauto.
Qed.

Lemma dict_set_entries_Forall {V : Type} (J : string -> V -> Prop) (k : string)
    (v : V) (d : dict V) :
  Forall (fun e => J (fst e) (snd e)) d -> J k v ->
  Forall (fun e => J (fst e) (snd e)) (dict_set k v d).
Proof.
  intros Hd Hv. induction d as [|[k' v'] d IH]; simpl.
  - constructor; auto.
  - inversion Hd; subst. destruct (String.eqb k k') eqn:E.
    + apply String.eqb_eq in E. subst. constructor; auto.
    + constructor; auto.
Qed.

Lemma new_Warehouse_ok :
  accounted new_Warehouse /\ pending_nonneg new_Warehouse
  /\ Forall item_bounds (values (items new_Warehouse)).
Proof.
  repeat split; constructor.
Qed.

Lemma register_item_ok (self : Warehouse) (item : InventoryItem) :
  0 <= stock item <= max_capacity item ->
  Forall (fun s => 0 <= s <= max_capacity item) (stock_history item) ->
  0 <= lost_sales item <= sumZ (demand_history item) ->
  accounted self /\ pending_nonneg self
  /\ Forall item_bounds (values (items self)) ->
  accounted (register_item self item) /\ pending_nonneg (register_item self item)
  /\ Forall item_bounds (values (items (register_item self item))).
Proof.
  intros Hstock Hhist Hlost ([Hnd HJ] & Hpend & Hb).
  repeat split.
  - simpl. now apply dict_set_keys_NoDup.
  - simpl. apply dict_set_entries_Forall; [exact HJ|].
    unfold demand_accounted. repeat split; lia.
  - exact Hpend.
  - simpl. apply dict_set_values_Forall; [exact Hb|].
    split; assumption.
Qed.

Lemma new_InventoryItem_ok (sku name : string) (initial_stock : Z)
    (demand cost holding ordering : Q) (capacity : Z) (agent : SupplierAgent) :
  0 <= initial_stock <= capacity ->
  let item := new_InventoryItem sku name initial_stock demand cost holding
                ordering capacity agent in
  0 <= stock item <= max_capacity item
  /\ Forall (fun s => 0 <= s <= max_capacity item) (stock_history item)
  /\ 0 <= lost_sales item <= sumZ (demand_history item).
Proof.
  intros H. simpl. repeat split; try lia. constructor.
Qed.

(** ** LPStrategy.plan *)

Lemma fold_dict_set_get {V : Type} (f : string -> V) (k : string)
    (ks : list string) :
  forall acc,
    dict_get k (fold_left (fun plan sku => dict_set sku (f sku) plan) ks acc)
    = if in_dec string_dec k ks then Some (f k) else dict_get k acc.
Proof.
  induction ks as [|k0 ks IH]; intros acc; simpl.
  - reflexivity.
  - rewrite IH. destruct (string_dec k0 k) as [->|Hne].
    + destruct (in_dec string_dec k ks); [reflexivity|].
      apply dict_get_set_same.
    + destruct (in_dec string_dec k ks); [reflexivity|].
      now apply dict_get_set_other.
Qed.

(** When the solver call returns, every SKU of the plan is rounded against
    the supplier of one and the same item, the last of the dictionary. *)
Lemma lp_plan_get (solve : LpSolver) (self : LPStrategy) (warehouse : Warehouse)
    (day : Z) (solution : LpSolution) :
  items warehouse <> [] ->
  solve (lp_problem self warehouse day) = Ok solution ->
  exists p front k last,
    items warehouse = front ++ [(k, last)]
    /\ LPStrategy_plan solve self warehouse day = Ok p
    /\ forall sku,
         dict_get sku p
         = if in_dec string_dec sku (keys (items warehouse))
           then Some (lp_round last (varValue solution (Q_ sku)))
           else None.
Proof.
  intros Hne Hsolve. unfold LPStrategy_plan.
  destruct (rev (items warehouse)) as [|[k last] tl] eqn:Hrev.
  - apply (f_equal (@rev _)) in Hrev. rewrite rev_involutive in Hrev.
    contradiction.
  - rewrite Hsolve. cbn [bind]. eexists. exists (rev tl), k, last.
    split; [|split; [reflexivity|]].
    + apply (f_equal (@rev _)) in Hrev. rewrite rev_involutive in Hrev.
      exact Hrev.
    + intros sku. rewrite fold_dict_set_get. reflexivity.
Qed.


(** ** InventoryItem.sell and InventoryItem.receive on non-negative quantities *)

(** X1.  [sell] on a non-negative quantity and a non-negative stock: what
    is sold and what is lost add up to the quantity, the sale is at most the
    stock, the stock goes down to [max (stock - qty) 0], the loss
    [max (qty - stock) 0] is added to [lost_sales], and a sale that loses
    anything leaves the stock empty. *)
Theorem sell_conserves (self : InventoryItem) (qty : Z) :
  0 <= qty -> 0 <= stock self ->
  let '(self', (sold, lost)) := sell self qty in
  sold + lost = qty
  /\ 0 <= sold <= stock self
  /\ stock self' = Z.max (stock self - qty) 0
  /\ lost = Z.max (qty - stock self) 0
  /\ lost_sales self' = lost_sales self + lost
  /\ (0 < lost -> stock self' = 0).
Proof.
  intros Hq Hs. unfold sell. simpl. lia.
Qed.

(** X2.  Two sales in a row leave the item as one sale of the sum does, for
    non-negative quantities and stock. *)
Theorem sell_twice (self : InventoryItem) (a b : Z) :
  0 <= a -> 0 <= b -> 0 <= stock self ->
  fst (sell (fst (sell self a)) b) = fst (sell self (a + b)).
Proof.
  intros Ha Hb Hs. unfold sell. simpl. unfold set_lost_sales, set_stock. simpl.
  f_equal; lia.
Qed.

(** X3.  [receive] on a non-negative quantity accepts between 0 and the
    quantity and adds what it accepts to the stock; within capacity the stock
    becomes [min (stock + qty) max_capacity]; an item at or over its capacity
    accepts nothing and stays as it is. *)
Theorem receive_fills_to_capacity (self : InventoryItem) (qty : Z) :
  0 <= qty ->
  let '(self', accepted) := receive self qty in
  0 <= accepted <= qty
  /\ stock self' = stock self + accepted
  /\ (stock self <= max_capacity self ->
      stock self' = Z.min (stock self + qty) (max_capacity self))
  /\ (max_capacity self <= stock self -> accepted = 0 /\ self' = self).
Proof.
  intros Hq. unfold receive. simpl.
  split; [lia|]. split; [reflexivity|]. split; [lia|].
  intros Hfull.
  replace (Z.min qty (Z.max 0 (max_capacity self - stock self))) with 0 by lia.
  split; [reflexivity|].
  destruct self. unfold set_stock. simpl. f_equal. lia.
Qed.

(** X4.  Two receipts in a row leave the item as one receipt of the sum
    does, for non-negative quantities. *)
Theorem receive_twice (self : InventoryItem) (a b : Z) :
  0 <= a -> 0 <= b ->
  fst (receive (fst (receive self a)) b) = fst (receive self (a + b)).
Proof.
  intros Ha Hb. unfold receive. simpl. unfold set_stock. simpl. f_equal. lia.
Qed.

(** ** Rounding and the quantities a supplier accepts *)

Lemma py_round_floor_bounds (x : Q) :
  Qfloor x <= py_round x <= Qfloor x + 1.
Proof.
  unfold py_round. destruct (Qcompare _ _); [destruct (Z.even _)| |]; lia.
Qed.

Lemma py_round_ge_int (x : Q) (n : Z) :
  (inject_Z n <= x)%Q -> n <= py_round x.
Proof.
  intros H. pose proof (py_round_floor_bounds x) as [Hlo _].
  apply Qfloor_resp_le in H. rewrite Qfloor_Z in H. lia.
Qed.

Lemma py_round_le_int (x : Q) (n : Z) :
  (x <= inject_Z n)%Q -> py_round x <= n.
Proof.
  intros H.
  assert (Hf : Qfloor x <= n).
  { apply Qfloor_resp_le in H. now rewrite Qfloor_Z in H. }
  destruct (Z.eq_dec (Qfloor x) n) as [E|E].
  - unfold py_round.
    assert (Hx : (x - inject_Z (Qfloor x) < 1 # 2)%Q).
    { rewrite E. lra. }
    destruct (Qcompare (x - inject_Z (Qfloor x)) (1 # 2)) eqn:C.
    + apply Qeq_alt in C. lra.
    + lia.
    + apply Qgt_alt in C. lra.
  - pose proof (py_round_floor_bounds x). lia.
Qed.

Lemma py_round_int (n : Z) : py_round (inject_Z n) = n.
Proof.
  apply Z.le_antisymm.
  - apply py_round_le_int. lra.
  - apply py_round_ge_int. lra.
Qed.

Section Supplier.

Context {R : RandomSource}.

(** X7.  A supplier whose lead-time range is empty ([high < low]) still
    answers [(0, None)] to a request that is not positive or under the
    minimum, without a draw; every other request raises: what the scaling by
    the fill rate raises if it does, and else the [ValueError] of
    [random.randint]. *)
Theorem place_order_empty_range (self : SupplierAgent) (sku : string)
    (requested_qty day : Z) (g : rng_state) :
  snd (lead_time_range self) < fst (lead_time_range self) ->
  place_order self sku requested_qty day g
  = if (requested_qty <=? 0) || (requested_qty <? min_order self)
    then Ok ((0, None), g)
    else (scaled <- int_times_float
                      (Z.min requested_qty (max_supply_per_order self))
                      (fill_rate self) ;;
          _ <- float_round scaled ;;
          Raise ValueError).
Proof.
  intros Hrange. unfold place_order.
  destruct (requested_qty <=? 0); [reflexivity|].
  destruct (requested_qty <? min_order self); [reflexivity|]. simpl.
  destruct (int_times_float _ _) as [scaled|e]; cbn [bind]; [|reflexivity].
  destruct (float_round scaled) as [accepted|e]; cbn [bind]; [|reflexivity].
  rewrite randint_empty by exact Hrange. reflexivity.
Qed.

End Supplier.

(** ** What Warehouse._receive_arrivals releases *)

(** The loop releases a prefix of the queue: every released entry is due,
    the head of what stays is not, and the items are credited in queue
    order. *)
Theorem release_due_prefix (day : Z) (sku : string) (queue : Queue) :
  forall its,
  exists released,
    queue = released ++ fst (release_due day sku queue its)
    /\ Forall (fun e => fst e <= day) released
    /\ head_not_due day (fst (release_due day sku queue its))
    /\ snd (release_due day sku queue its)
       = fold_left (fun its e => credit_arrival sku (snd e) its) released its.
Proof.
  induction queue as [|[a q] rest IH]; intros its; simpl.
  - exists []. repeat split; constructor.
  - destruct (a <=? day) eqn:E.
    + destruct (IH (credit_arrival sku q its)) as (rel & Hq & Hdue & Hhead & Hits).
      exists ((a, q) :: rel). apply Z.leb_le in E. simpl.
      repeat split; auto. congruence.
    + exists []. apply Z.leb_gt in E. simpl. repeat split; auto.
Qed.

Lemma credit_arrival_other (sku k : string) (qty : Z) (its : dict InventoryItem) :
  sku <> k -> dict_get k (credit_arrival sku qty its) = dict_get k its.
Proof.
  intros Hne. unfold credit_arrival.
  destruct (dict_get sku its); [|reflexivity].
  now apply dict_get_set_other.
Qed.

Lemma credit_arrival_missing (sku : string) (qty : Z) (its : dict InventoryItem) :
  dict_get sku its = None -> credit_arrival sku qty its = its.
Proof. intros H. unfold credit_arrival. now rewrite H. Qed.

(** X9.  The arrivals of one SKU leave every other item as it is, and the
    arrivals of a SKU that is not registered are dropped: the item dictionary
    is unchanged. *)
Theorem release_due_frame (day : Z) (sku : string) (queue : Queue) :
  forall its,
    (forall k, sku <> k ->
       dict_get k (snd (release_due day sku queue its)) = dict_get k its)
    /\ (dict_get sku its = None -> snd (release_due day sku queue its) = its).
Proof.
  induction queue as [|[a q] rest IH]; intros its; simpl.
  - split; auto.
  - destruct (a <=? day); [|split; auto].
    destruct (IH (credit_arrival sku q its)) as [Hother Hnone]. split.
    + intros k Hne. rewrite Hother by exact Hne. now apply credit_arrival_other.
    + intros Hmiss. rewrite credit_arrival_missing in * by exact Hmiss. auto.
Qed.

Lemma sumZ_snd_nonneg (queue : Queue) :
  Forall (fun e => 0 <= snd e) queue -> 0 <= sumZ (map snd queue).
Proof. induction 1 as [|e l He Hl IH]; simpl; lia. Qed.

Lemma credit_fold_stock (sku : string) (released : Queue) :
  forall its item,
    dict_get sku its = Some item ->
    stock item <= max_capacity item ->
    Forall (fun e => 0 <= snd e) released ->
    exists item',
      dict_get sku (fold_left (fun its e => credit_arrival sku (snd e) its) released its)
        = Some item'
      /\ stock item' = Z.min (stock item + sumZ (map snd released)) (max_capacity item)
      /\ max_capacity item' = max_capacity item
      /\ lost_sales item' = lost_sales item
      /\ total_ordered item' = total_ordered item
      /\ total_cost item' = total_cost item.
Proof.
  induction released as [|[a q] rel IH]; intros its item Hget Hcap Hnn; simpl.
  - exists item. repeat split; auto. lia.
  - inversion Hnn as [|e l Hq Hrel]; subst. simpl in Hq.
    unfold credit_arrival at 2. rewrite Hget.
    destruct (IH (dict_set sku (fst (receive item q)) its) (fst (receive item q)))
      as (item' & Hget' & Hs & Hc & Hl & Ho & Ht); auto.
    + apply dict_get_set_same.
    + unfold receive. simpl. lia.
    + exists item'. split; [exact Hget'|].
      pose proof (sumZ_snd_nonneg rel Hrel) as Hsum.
      unfold receive in *. simpl in *. repeat split; auto. lia.
Qed.

(** X10.  For an item within capacity and a queue of non-negative
    quantities, the loop splits the queue into the released prefix and the
    rest that stays; the stock becomes the stock plus the released quantities,
    capped at [max_capacity], and the counters of the item are untouched. *)
Theorem release_due_stock (day : Z) (sku : string) (queue : Queue)
    (its : dict InventoryItem) (item : InventoryItem) :
  dict_get sku its = Some item ->
  stock item <= max_capacity item ->
  Forall (fun e => 0 <= snd e) queue ->
  exists released item',
    queue = released ++ fst (release_due day sku queue its)
    /\ dict_get sku (snd (release_due day sku queue its)) = Some item'
    /\ stock item'
       = Z.min (stock item + sumZ (map snd released)) (max_capacity item)
    /\ lost_sales item' = lost_sales item
    /\ total_ordered item' = total_ordered item
    /\ total_cost item' = total_cost item.
Proof.
  intros Hget Hcap Hnn.
  destruct (release_due_prefix day sku queue its) as (rel & Hq & _ & _ & Hits).
  assert (Hrel : Forall (fun e => 0 <= snd e) rel).
  { rewrite Hq in Hnn. apply Forall_app in Hnn. tauto. }
  destruct (credit_fold_stock sku rel its item Hget Hcap Hrel)
    as (item' & Hget' & Hs & _ & Hl & Ho & Ht).
  exists rel, item'. rewrite Hits. repeat split; auto.
Qed.

Lemma release_due_idle (day : Z) (sku : string) (queue : Queue)
    (its : dict InventoryItem) :
  head_not_due day queue -> release_due day sku queue its = (queue, its).
Proof.
  destruct queue as [|[a q] rest]; simpl; [reflexivity|].
  intros H. destruct (a <=? day) eqn:E; [|reflexivity].
  apply Z.leb_le in E. lia.
Qed.

Lemma receive_queues_idle (day : Z) (inc : dict Queue) :
  Forall (head_not_due day) (values inc) ->
  forall its, receive_queues day inc its = (inc, its).
Proof.
  induction inc as [|[sku queue] more IH]; intros H its; simpl.
  - reflexivity.
  - inversion H as [|x l Hq Hmore]; subst. simpl in Hq.
    rewrite release_due_idle by exact Hq. rewrite IH by exact Hmore. reflexivity.
Qed.

Lemma receive_queues_heads (day : Z) (inc : dict Queue) :
  forall its,
    Forall (head_not_due day) (values (fst (receive_queues day inc its)))
    /\ keys (fst (receive_queues day inc its)) = keys inc.
Proof.
  induction inc as [|[sku queue] more IH]; intros its; simpl.
  - split; [constructor | reflexivity].
  - destruct (release_due_prefix day sku queue its) as (rel & _ & _ & Hhead & _).
    destruct (release_due day sku queue its) as [queue' its'].
    destruct (IH its') as [Hheads Hkeys].
    destruct (receive_queues day more its') as [more' its''].
    simpl in *. split; [constructor; assumption | now rewrite Hkeys].
Qed.

(** X11.  After [_receive_arrivals] no queue has a due entry at its head,
    the SKUs of [incoming] are kept (a queue that is emptied stays as an empty
    list), and a second call on the same day changes nothing. *)
Theorem receive_arrivals_settles (self : Warehouse) (day : Z) :
  Forall (head_not_due day) (values (incoming (_receive_arrivals self day)))
  /\ keys (incoming (_receive_arrivals self day)) = keys (incoming self)
  /\ _receive_arrivals (_receive_arrivals self day) day = _receive_arrivals self day.
Proof.
  destruct (receive_arrivals_fields self day) as [Hi Hq].
  destruct (receive_queues_heads day (incoming self) (items self)) as [Hh Hk].
  rewrite <- Hq in Hh, Hk.
  split; [exact Hh|]. split; [exact Hk|].
  unfold _receive_arrivals at 1.
  rewrite (receive_queues_idle day _ Hh).
  destruct (_receive_arrivals self day). reflexivity.
Qed.

(** A warehouse with no due entry at the head of any queue is left as it
    is. *)
Theorem receive_arrivals_idle (self : Warehouse) (day : Z) :
  Forall (head_not_due day) (values (incoming self)) ->
  _receive_arrivals self day = self.
Proof.
  intros H. unfold _receive_arrivals. rewrite receive_queues_idle by exact H.
  destruct self. reflexivity.
Qed.

Lemma release_due_all (day : Z) (sku : string) (queue : Queue) :
  Forall (fun e => fst e <= day) queue ->
  forall its, fst (release_due day sku queue its) = [].
Proof.
  induction 1 as [|[a q] rest Ha Hrest IH]; intros its; simpl; [reflexivity|].
  simpl in Ha. destruct (a <=? day) eqn:E; [apply IH|].
  apply Z.leb_gt in E. lia.
Qed.

(** X12.  Once the day has reached every pending arrival day, whatever the
    order of the queues, [_receive_arrivals] empties every queue. *)
Theorem receive_arrivals_empties (self : Warehouse) (day : Z) :
  Forall (Forall (fun e => fst e <= day)) (values (incoming self)) ->
  Forall (fun q => q = []) (values (incoming (_receive_arrivals self day))).
Proof.
  intros H. rewrite (proj2 (receive_arrivals_fields self day)).
  generalize (items self). revert H.
  induction (incoming self) as [|[sku queue] more IH]; intros H its; simpl.
  - constructor.
  - inversion H as [|x l Hq Hmore]; subst. simpl in Hq.
    pose proof (release_due_all day sku queue Hq its) as Hall.
    destruct (release_due day sku queue its) as [queue' its'].
    specialize (IH Hmore its').
    destruct (receive_queues day more its') as [more' its''].
    simpl in *. constructor; assumption.
Qed.

(** ** Warehouse._place_orders *)

Section Orders.

Context {R : RandomSource}.

(** X13.  A plan whose entries are not positive or name no registered item
    is skipped entirely: the warehouse, the generator and the log are as
    before, and no lead time is drawn. *)
Theorem place_orders_skips (p : dict Z) (day : Z) (w : World) :
  Forall (fun e => snd e <= 0 \/ dict_get (fst e) (items (wh w)) = None) p ->
  _place_orders p day w = Ok w.
Proof.
  induction 1 as [|[sku req] rest Hhead Hrest IH]; cbn [_place_orders].
  - reflexivity.
  - simpl in Hhead. destruct (req <=? 0) eqn:E; [exact IH|].
    apply Z.leb_gt in E. destruct Hhead as [Hle|Hnone]; [lia|].
    rewrite Hnone. exact IH.
Qed.

Lemma get_default_enqueue (sku k : string) (arrival accepted : Z)
    (inc : dict Queue) :
  get_default (enqueue sku arrival accepted inc) k []
  = if String.eqb sku k
    then get_default inc k [] ++ [(arrival, accepted)]
    else get_default inc k [].
Proof.
  unfold enqueue, get_default at 1.
  destruct (String.eqb sku k) eqn:E.
  - apply String.eqb_eq in E. subst k. now rewrite dict_get_set_same.
  - apply String.eqb_neq in E. rewrite dict_get_set_other by exact E.
    reflexivity.
Qed.

Lemma book_order_supplier (self : Warehouse) (sku : string) (item : InventoryItem)
    (accepted : Z) (arrival : option Z) (k : string) (it1 : InventoryItem) :
  dict_get sku (items self) = Some item ->
  dict_get k (items (book_order self sku item accepted arrival)) = Some it1 ->
  exists it, dict_get k (items self) = Some it /\ supplier it = supplier it1.
Proof.
  intros Hitem. unfold book_order.
  destruct (0 <? accepted); [|eauto].
  destruct arrival; [|eauto]. simpl.
  destruct (String.eqb sku k) eqn:E.
  - apply String.eqb_eq in E. subst k. rewrite dict_get_set_same.
    intros H. injection H as <-. exists item. split; [exact Hitem|].
    unfold add_cost_for_order. destruct (accepted <=? 0); reflexivity.
  - apply String.eqb_neq in E. rewrite dict_get_set_other by exact E. eauto.
Qed.

Lemma placed_on_earlier (day : Z) (its its1 : dict InventoryItem) (sku : string)
    (e : Z * Z) :
  (forall it1, dict_get sku its1 = Some it1 ->
     exists it, dict_get sku its = Some it /\ supplier it = supplier it1) ->
  placed_on day its1 sku e -> placed_on day its sku e.
Proof.
  intros Hback (Hpos & it1 & Hget & Hrange).
  destruct (Hback it1 Hget) as (it & Hit & Hsup).
  split; [exact Hpos|]. exists it. rewrite Hsup. auto.
Qed.

(** X14.  [_place_orders] only appends to the pending queues: the queue of
    every SKU afterwards is the queue before followed by new entries, each of
    a positive quantity and due within the lead-time range of the supplier of
    the item. *)
Theorem place_orders_appends (p : dict Z) (day : Z) :
  forall (w w' : World),
    _place_orders p day w = Ok w' ->
    forall sku,
    exists added,
      get_default (incoming (wh w')) sku []
      = get_default (incoming (wh w)) sku [] ++ added
      /\ Forall (placed_on day (items (wh w)) sku) added.
Proof.
  induction p as [|[sku0 req] rest IH]; intros w w' H sku; cbn [_place_orders] in H.
  - injection H as <-. exists []. split; [now rewrite app_nil_r | constructor].
  - destruct (req <=? 0) eqn:Ereq; [eauto|].
    destruct (dict_get sku0 (items (wh w))) as [item|] eqn:Hitem; [|eauto].
    destruct (place_order _ _ _ _ _) as [[[accepted arrival] g1]|e] eqn:Hpo;
      cbn [bind] in H; [|discriminate].
    destruct (IH _ _ H sku) as (added1 & Hq1 & Hp1). simpl in Hq1, Hp1.
    assert (Hp1' : Forall (placed_on day (items (wh w)) sku) added1).
    { eapply Forall_impl; [|exact Hp1]. intros e.
      apply placed_on_earlier. intros it1.
      now apply book_order_supplier. }
    unfold book_order in Hq1.
    destruct (0 <? accepted) eqn:Eacc; [|eauto].
    destruct arrival as [arr|]; [|eauto].
    simpl in Hq1. rewrite get_default_enqueue in Hq1.
    destruct (String.eqb sku0 sku) eqn:Esku; [|eauto].
    apply String.eqb_eq in Esku. subst sku0.
    exists ((arr, accepted) :: added1).
    split; [rewrite Hq1, <- app_assoc; reflexivity|].
    constructor; [|exact Hp1'].
    apply Z.ltb_lt in Eacc. split; [exact Eacc|].
    exists item. split; [exact Hitem|].
    unfold place_order in Hpo.
    destruct (req <=? 0); [discriminate|].
    destruct (req <? min_order (supplier item)); [discriminate|].
    destruct (int_times_float _ _) as [scaled|e]; cbn [bind] in Hpo;
      [|discriminate].
    destruct (float_round scaled) as [a|e]; cbn [bind] in Hpo; [|discriminate].
    destruct (randint _ _ (gen w)) as [[lt g2]|e] eqn:Hdraw; cbn [bind] in Hpo;
      [|discriminate].
    apply randint_range in Hdraw. injection Hpo as _ Harr _. simpl. lia.
Qed.

End Orders.

Lemma items_rel_compose (P Q R : InventoryItem -> InventoryItem -> Prop)
    (d1 d2 d3 : dict InventoryItem) :
  (forall x y z, P x y -> Q y z -> R x z) ->
  items_rel P d1 d2 -> items_rel Q d2 d3 -> items_rel R d1 d3.
Proof.
  intros HR H12. revert d3.
  induction H12 as [|e1 e2 d1 d2 [Hk Hp] H12 IH]; intros d3 H23;
    inversion H23 as [|e2' e3 d2' d3' [Hk' Hq] H23']; subst; constructor.
  - split; [congruence | eauto].
  - apply IH. exact H23'.
Qed.

Lemma bind_ok_r {A : Type} (m : result A) : (x <- m ;; Ok x) = m.
Proof. destruct m; reflexivity. Qed.

Lemma same_config_step_closed : step_closed (fun _ => True) same_config.
Proof.
  constructor; unfold same_config.
  - intros x. repeat split.
  - intros x y z H1 H2. decompose [and] H1. decompose [and] H2.
    repeat split; congruence.
  - intros arrival accepted _. exact I.
  - intros it e _. unfold receive. simpl. repeat split.
  - intros it d _. unfold sell. simpl. repeat split.
  - intros it q _. unfold add_cost_for_order. destruct (q <=? 0); simpl; repeat split.
  - intros it d r. simpl. repeat split.
Qed.

Lemma counters_grow_step_closed : step_closed (fun _ => True) counters_grow.
Proof.
  constructor; unfold counters_grow.
  - intros x. repeat split; try lia. intros _ _. apply Qle_refl.
  - intros x y z (A1 & A2 & A3 & A4 & A5) (B1 & B2 & B3 & B4 & B5).
    repeat split; try congruence; try lia.
    intros H1 H2. eapply Qle_trans; [apply A5; assumption|].
    apply B5; congruence.
  - intros arrival accepted _. exact I.
  - intros it e _. unfold receive. simpl. repeat split; try lia.
    intros _ _. apply Qle_refl.
  - intros it d Hd. unfold sell. simpl. repeat split; try lia.
    intros _ _. apply Qle_refl.
  - intros it q Hq. unfold add_cost_for_order.
    destruct (q <=? 0) eqn:E; [apply Z.leb_le in E; lia|]. simpl.
    repeat split; try lia. intros Ho Hu.
    assert (Hq' : (0 <= inject_Z q)%Q).
    { change 0%Q with (inject_Z 0). rewrite <- Zle_Qle. lia. }
    pose proof (Qmult_le_0_compat _ _ Hq' Hu). lra.
  - intros it d r. simpl. repeat split; try lia. intros _ _. apply Qle_refl.
Qed.

Section MoreRuns.

Context {R : RandomSource}.
Variable strategy : RestockStrategy.

(** X15.  A run never adds, removes, reorders or reconfigures items: the
    SKUs and their order are as at the start, and every item keeps its name,
    demand, costs, capacity and supplier. *)
Theorem simulate_keeps_catalogue (days start_day : Z) (seed : option Z)
    (w w' : World) :
  simulate strategy days start_day seed w = Ok w' ->
  keys (items (wh w')) = keys (items (wh w))
  /\ forall sku it,
       dict_get sku (items (wh w)) = Some it ->
       exists it', dict_get sku (items (wh w')) = Some it' /\ same_config it it'.
Proof.
  intros H.
  destruct (simulate_rel strategy _ _ same_config_step_closed _ _ _ _ _
              (queues_ok_True _) H) as [Hrel _].
  split; [eapply items_rel_keys; exact Hrel|].
  intros sku it Hget. eapply items_rel_get; eauto.
Qed.

(** X16.  Over a run [lost_sales] and [total_ordered] of an item never
    decrease, and neither does [total_cost] when the order cost and the unit
    cost are not negative. *)
Theorem simulate_counters_grow (days start_day : Z) (seed : option Z)
    (w w' : World) :
  simulate strategy days start_day seed w = Ok w' ->
  forall sku it,
    dict_get sku (items (wh w)) = Some it ->
    exists it',
      dict_get sku (items (wh w')) = Some it'
      /\ lost_sales it <= lost_sales it'
      /\ total_ordered it <= total_ordered it'
      /\ ((0 <= order_cost it)%Q -> (0 <= unit_cost it)%Q ->
          (total_cost it <= total_cost it')%Q).
Proof.
  intros H sku it Hget.
  destruct (simulate_rel strategy _ _ counters_grow_step_closed _ _ _ _ _
              (queues_ok_True _) H) as [Hrel _].
  destruct (items_rel_get _ _ _ _ _ Hrel Hget) as (it' & Hget' & _ & _ & H1 & H2 & H3).
  exists it'. auto.
Qed.

Lemma simulate_days_app (n m : nat) :
  forall (day : Z) (w : World),
    simulate_days strategy (n + m) day w
    = (w1 <- simulate_days strategy n day w ;;
       simulate_days strategy m (day + Z.of_nat n) w1).
Proof.
  induction n as [|n IH]; intros day w.
  - cbn [simulate_days Nat.add bind]. now rewrite Z.add_0_r.
  - cbn [simulate_days Nat.add].
    destruct (simulate_day strategy day w) as [w1|e]; cbn [bind]; [|reflexivity].
    rewrite IH. replace (day + 1 + Z.of_nat n) with (day + Z.of_nat (S n)) by lia.
    reflexivity.
Qed.

(** X17.  A run of [a + b] days is a run of [a] days followed by a run of
    [b] days that starts on day [start_day + a] and does not reseed. *)
Theorem simulate_split (a b start_day : Z) (seed : option Z) (w : World) :
  0 <= a -> 0 <= b ->
  simulate strategy (a + b) start_day seed w
  = (w1 <- simulate strategy a start_day seed w ;;
     simulate strategy b (start_day + a) None w1).
Proof.
  intros Ha Hb. unfold simulate.
  rewrite Z2Nat.inj_add by assumption. rewrite simulate_days_app.
  rewrite Z2Nat.id by assumption. reflexivity.
Qed.

Lemma simulate_day_recorded (day : Z) (w w' : World) :
  simulate_day strategy day w = Ok w' ->
  items_rel (recorded 1) (items (wh w)) (items (wh w')).
Proof.
  intros H. apply simulate_day_inv in H.
  destruct H as (its & dd & g & p & w3 & Hs & Hplan & Hp & ->).
  assert (Hrefl : forall x, same_histories x x) by (unfold same_histories; auto).
  assert (Htrans : forall x y z, same_histories x y -> same_histories y z ->
                                 same_histories x z).
  { unfold same_histories. intros x y z (A1 & A2 & A3 & A4) (B1 & B2 & B3 & B4).
    repeat split; congruence. }
  assert (H1 : items_rel same_histories (items (wh w))
                 (items (_receive_arrivals (wh w) day))).
  { rewrite (proj1 (receive_arrivals_fields (wh w) day)).
    apply (receive_queues_rel _ Hrefl Htrans (fun _ => True)).
    - intros it e _. unfold same_histories, receive. simpl. auto.
    - apply queues_ok_True. }
  assert (H2 : items_rel same_histories (items (_receive_arrivals (wh w) day)) its).
  { eapply (sell_all_rel same_histories); [|exact Hs].
    intros it d _. unfold same_histories, sell. simpl. auto. }
  assert (H3 : items_rel same_histories its (items (wh w3))).
  { apply (place_orders_rel same_histories Hrefl Htrans) in Hp; [exact Hp|].
    intros it q _. unfold same_histories, add_cost_for_order.
    destruct (q <=? 0); simpl; auto. }
  pose proof (items_rel_trans _ Htrans _ _ _ H1
                (items_rel_trans _ Htrans _ _ _ H2 H3)) as H13.
  simpl.
  eapply items_rel_compose; [|exact H13|].
  2:{ apply (record_all_rel (fun it it' => exists d r, it' = record_day it d r)).
      intros it d r. eauto. }
  intros x y z (A1 & A2 & A3 & A4) (d & r & ->).
  exists [stock y], [d], [r], [total_cost y]. simpl.
  rewrite A1, A2, A3, A4. repeat split.
Qed.

Lemma recorded_next (n : nat) (x y z : InventoryItem) :
  recorded n x y -> recorded 1 y z -> recorded (S n) x z.
Proof.
  intros (sh & dh & rh & ch & A1 & A2 & A3 & A4 & L1 & L2 & L3 & L4 & _)
         (sh' & dh' & rh' & ch' & B1 & B2 & B3 & B4 & M1 & M2 & M3 & M4 & Hlast).
  exists (sh ++ sh'), (dh ++ dh'), (rh ++ rh'), (ch ++ ch').
  rewrite B1, B2, B3, B4, A1, A2, A3, A4, <- !app_assoc.
  rewrite !length_app, L1, L2, L3, L4, M1, M2, M3, M4.
  repeat split; try lia.
  - destruct sh' as [|s [|s' sh']]; try discriminate.
    rewrite last_last. apply Hlast. discriminate.
  - destruct ch' as [|c [|c' ch']]; try discriminate.
    rewrite last_last. apply Hlast. discriminate.
Qed.

Lemma simulate_days_recorded (n : nat) :
  forall (day : Z) (w w' : World),
    simulate_days strategy n day w = Ok w' ->
    items_rel (recorded n) (items (wh w)) (items (wh w')).
Proof.
  induction n as [|n IH]; intros day w w' H.
  - cbn [simulate_days] in H. injection H as <-.
    induction (items (wh w)) as [|e d IHd]; constructor; [|exact IHd].
    split; [reflexivity|].
    exists [], [], [], []. rewrite !app_nil_r. repeat split; congruence.
  - replace (S n) with (n + 1)%nat in H by lia.
    rewrite simulate_days_app in H.
    destruct (simulate_days strategy n day w) as [w1|e] eqn:Hn;
      cbn [bind] in H; [|discriminate].
    cbn [simulate_days] in H. rewrite bind_ok_r in H.
    apply simulate_day_recorded in H.
    eapply items_rel_compose; [|exact (IH _ _ _ Hn)|exact H].
    intros x y z. apply recorded_next.
Qed.

(** X18.  A run of [days] days appends exactly [days] entries to each of
    the four histories of every item and leaves what was recorded before in
    place; after at least one day the last recorded stock and cost are the
    stock and the total cost of the item. *)
Theorem simulate_records_days (days start_day : Z) (seed : option Z)
    (w w' : World) :
  simulate strategy days start_day seed w = Ok w' ->
  forall sku it,
    dict_get sku (items (wh w)) = Some it ->
    exists it' sh dh rh ch,
      dict_get sku (items (wh w')) = Some it'
      /\ stock_history it' = stock_history it ++ sh
      /\ demand_history it' = demand_history it ++ dh
      /\ reorder_history it' = reorder_history it ++ rh
      /\ cost_history it' = cost_history it ++ ch
      /\ List.length sh = Z.to_nat days /\ List.length dh = Z.to_nat days
      /\ List.length rh = Z.to_nat days /\ List.length ch = Z.to_nat days
      /\ (0 < days -> last sh 0 = stock it' /\ last ch 0%Q = total_cost it').
Proof.
  intros H sku it Hget. unfold simulate in H.
  apply simulate_days_recorded in H.
  assert (H' : items_rel (recorded (Z.to_nat days)) (items (wh w)) (items (wh w')))
    by (destruct seed; exact H).
  destruct (items_rel_get _ _ _ _ _ H' Hget)
    as (it' & Hget' & sh & dh & rh & ch & A1 & A2 & A3 & A4 & L1 & L2 & L3 & L4 & Hl).
  exists it', sh, dh, rh, ch. repeat split; auto; apply Hl; lia.
Qed.

End MoreRuns.

(** ** Warehouse.register_item, Warehouse.summary and recorded demand *)

Lemma dict_set_keys_absent {V : Type} (k : string) (v : V) (d : dict V) :
  dict_get k d = None -> keys (dict_set k v d) = keys d ++ [k].
Proof.
  induction d as [|[k' v'] d IH]; simpl; [reflexivity|].
  destruct (String.eqb k k'); [discriminate|]. intros H. simpl. f_equal. auto.
Qed.

(** X19.  After [register_item] the item is found under its SKU, every
    other SKU and the pending queues are as before; registering a known SKU
    replaces the item in place, registering a new one puts it last. *)
Theorem register_item_lookup (self : Warehouse) (item : InventoryItem) :
  dict_get (sku item) (items (register_item self item)) = Some item
  /\ (forall k, k <> sku item ->
        dict_get k (items (register_item self item)) = dict_get k (items self))
  /\ incoming (register_item self item) = incoming self
  /\ (forall old, dict_get (sku item) (items self) = Some old ->
        keys (items (register_item self item)) = keys (items self))
  /\ (dict_get (sku item) (items self) = None ->
        keys (items (register_item self item)) = keys (items self) ++ [sku item]).
Proof.
  unfold register_item. simpl. repeat split.
  - apply dict_get_set_same.
  - intros k Hne. apply dict_get_set_other. congruence.
  - intros old Hold. eapply dict_set_keys_present; eauto.
  - apply dict_set_keys_absent.
Qed.

Lemma register_item_registered (self : Warehouse) (item : InventoryItem) :
  registered (items self) -> registered (items (register_item self item)).
Proof.
  intros [Hnd Hk]. split; simpl.
  - now apply dict_set_keys_NoDup.
  - apply (dict_set_entries_Forall (fun k v => k = sku v)); auto.
Qed.

(** X20.  A warehouse built by registering new items whose initial stock
    is within capacity meets the conditions the run properties start from:
    items held under their own SKU, each once, stock and lost sales in
    bounds, and nothing pending. *)
Theorem register_all_valid (its : list InventoryItem) :
  Forall (fun it => 0 <= stock it <= max_capacity it
                    /\ stock_history it = [] /\ demand_history it = []
                    /\ lost_sales it = 0) its ->
  let self := register_all its new_Warehouse in
  registered (items self)
  /\ accounted self
  /\ pending_nonneg self
  /\ Forall item_bounds (values (items self))
  /\ incoming self = [].
Proof.
  intros Hits. cbv zeta. unfold register_all.
  assert (Hstart : registered (items new_Warehouse)
                   /\ (accounted new_Warehouse /\ pending_nonneg new_Warehouse
                       /\ Forall item_bounds (values (items new_Warehouse)))
                   /\ incoming new_Warehouse = []).
  { split; [split; constructor|]. split; [exact new_Warehouse_ok | reflexivity]. }
  revert Hstart. generalize new_Warehouse.
  induction Hits as [|it its (Hs & Hh & Hd & Hl) Hrest IH]; intros self Hself; simpl.
  - tauto.
  - apply IH. destruct Hself as (Hreg & Hok & Hinc).
    split; [now apply register_item_registered|]. split; [|exact Hinc].
    apply register_item_ok; auto.
    + rewrite Hh. constructor.
    + rewrite Hl, Hd. simpl. lia.
Qed.

Section Demands.

Context {R : RandomSource}.

Lemma sell_all_draws (its : dict InventoryItem) :
  forall dd g its' dd' g',
    sell_all its dd g = Ok (its', dd', g') ->
    NoDup (keys its) ->
    Forall (fun e => fst e = sku (snd e)) its ->
    (forall k, In k (keys its) ->
       exists d, dict_get k dd' = Some d /\ 5 <= d <= 15)
    /\ (forall k, ~ In k (keys its) -> dict_get k dd' = dict_get k dd).
Proof.
  induction its as [|[k item] rest IH]; intros dd g its' dd' g' H Hnd Hk;
    cbn [sell_all bind] in H.
  - injection H as _ <- _. split; [intros k []|reflexivity].
  - destruct (randint 5 15 g) as [[d g1]|e] eqn:Hdraw; cbn [bind] in H;
      [|discriminate].
    apply randint_range in Hdraw.
    destruct (sell_all rest _ _) as [[[rest' dd1] g2]|e] eqn:Hrec;
      cbn [bind] in H; [|discriminate].
    injection H as _ <- _.
    simpl in Hnd. inversion Hnd as [|k0 ks Hnotin Hnd']; subst.
    inversion Hk as [|e0 es Hhead Htail]; subst. simpl in Hhead.
    destruct (IH _ _ _ _ _ Hrec Hnd' Htail) as [Hin Hout].
    split.
    + intros k' [<-|Hk']; [|auto].
      exists d. split; [|exact Hdraw]. simpl.
      rewrite (Hout k Hnotin), <- Hhead. apply dict_get_set_same.
    + intros k' Hnot. simpl in Hnot. rewrite Hout by tauto.
      apply dict_get_set_other. rewrite <- Hhead. tauto.
Qed.

Variable strategy : RestockStrategy.

Lemma simulate_day_demand_range (day : Z) (w w' : World) :
  registered (items (wh w)) ->
  Forall demand_in_range (values (items (wh w))) ->
  simulate_day strategy day w = Ok w' ->
  registered (items (wh w')) /\ Forall demand_in_range (values (items (wh w'))).
Proof.
  intros [Hnd Hk] Hrange H.
  pose proof H as Hday.
  apply (simulate_day_rel strategy _ _ same_config_step_closed) in Hday;
    [|apply queues_ok_True].
  destruct Hday as [Hcfg _].
  split.
  { split.
    - rewrite (items_rel_keys _ _ _ Hcfg). exact Hnd.
    - apply (items_rel_Forall_entries same_config (fun k v => k = sku v)
               (fun k v => k = sku v) _ _) with (3 := Hk); [|exact Hcfg].
      intros k x y Hxy ->. symmetry. apply Hxy. }
  apply simulate_day_inv in H.
  destruct H as (its & dd & g & p & w3 & Hs & Hplan & Hp & ->).
  set (Pd := fun it it' : InventoryItem =>
               sku it' = sku it /\ demand_history it' = demand_history it).
  assert (Hrefl : forall x, Pd x x) by (unfold Pd; auto).
  assert (Htrans : forall x y z, Pd x y -> Pd y z -> Pd x z).
  { unfold Pd. intros x y z [A1 A2] [B1 B2]. split; congruence. }
  assert (H1 : items_rel Pd (items (wh w)) (items (_receive_arrivals (wh w) day))).
  { rewrite (proj1 (receive_arrivals_fields (wh w) day)).
    apply (receive_queues_rel _ Hrefl Htrans (fun _ => True)).
    - intros it e _. unfold Pd, receive. simpl. auto.
    - apply queues_ok_True. }
  assert (H2 : items_rel Pd (items (_receive_arrivals (wh w) day)) its).
  { eapply (sell_all_rel Pd); [|exact Hs].
    intros it d _. unfold Pd, sell. simpl. auto. }
  assert (H3 : items_rel Pd its (items (wh w3))).
  { apply (place_orders_rel Pd Hrefl Htrans) in Hp; [exact Hp|].
    intros it q _. unfold Pd, add_cost_for_order. destruct (q <=? 0); simpl; auto. }
  assert (Hnd1 : NoDup (keys (items (_receive_arrivals (wh w) day)))).
  { rewrite (items_rel_keys _ _ _ H1). exact Hnd. }
  assert (Hk1 : Forall (fun e => fst e = sku (snd e))
                       (items (_receive_arrivals (wh w) day))).
  { apply (items_rel_Forall_entries Pd (fun k v => k = sku v)
             (fun k v => k = sku v) _ _) with (3 := Hk); [|exact H1].
    intros k x y [Hxy _] ->. symmetry. exact Hxy. }
  destruct (sell_all_draws _ _ _ _ _ _ Hs Hnd1 Hk1) as [Hin _].
  pose proof (items_rel_trans _ Htrans _ _ _ H1
                (items_rel_trans _ Htrans _ _ _ H2 H3)) as H13.
  assert (Hkeys3 : keys (items (wh w3)) = keys (items (_receive_arrivals (wh w) day))).
  { rewrite (items_rel_keys _ _ _ (items_rel_trans _ Htrans _ _ _ H2 H3)).
    reflexivity. }
  assert (HJ : Forall (fun e => In (fst e) (keys (items (wh w3)))
                                /\ demand_in_range (snd e)) (items (wh w3))).
  { assert (HJ0 : Forall (fun e => demand_in_range (snd e)) (items (wh w))).
    { unfold values in Hrange. now rewrite Forall_map in Hrange. }
    pose proof (items_rel_Forall_entries Pd (fun _ v => demand_in_range v)
                  (fun _ v => demand_in_range v) _ _
                  (fun k x y (Hxy : Pd x y) (Hx : demand_in_range x) =>
                     eq_ind_r (fun l => Forall _ l) Hx (proj2 Hxy))
                  H13 HJ0) as HJ3.
    rewrite Forall_forall in *. intros e He. split; [|auto].
    unfold keys. apply in_map. exact He. }
  simpl. unfold values, record_all. rewrite map_map, Forall_map.
  eapply Forall_impl; [|exact HJ]. intros [k it] [Hkin Hr]. simpl in *.
  unfold demand_in_range in *. simpl. apply Forall_app. split; [exact Hr|].
  constructor; [|constructor].
  rewrite Hkeys3 in Hkin. destruct (Hin k Hkin) as (d & Hd & Hdr).
  unfold get_default. now rewrite Hd.
Qed.

(** X21.  On a warehouse that holds each item under its own SKU, every
    daily demand a run records is the draw of that day for that item, so all
    recorded demands are between 5 and 15. *)
Theorem simulate_demand_range (days start_day : Z) (seed : option Z)
    (w w' : World) :
  registered (items (wh w)) ->
  Forall demand_in_range (values (items (wh w))) ->
  simulate strategy days start_day seed w = Ok w' ->
  Forall (fun it => Forall (fun d => 5 <= d <= 15) (demand_history it))
         (values (items (wh w'))).
Proof.
  intros Hreg Hrange H. unfold simulate in H.
  assert (Hgen : forall n day (w0 w1 : World),
             registered (items (wh w0)) ->
             Forall demand_in_range (values (items (wh w0))) ->
             simulate_days strategy n day w0 = Ok w1 ->
             registered (items (wh w1))
             /\ Forall demand_in_range (values (items (wh w1)))).
  { induction n as [|n IH]; intros day w0 w1 H0 H1 Hrun; cbn [simulate_days] in Hrun.
    - injection Hrun as <-. auto.
    - destruct (simulate_day strategy day w0) as [w2|e] eqn:Hday;
        cbn [bind] in Hrun; [|discriminate].
      destruct (simulate_day_demand_range _ _ _ H0 H1 Hday) as [H0' H1'].
      eauto. }
  eapply Hgen in H; [exact (proj2 H)| |]; destruct seed; assumption.
Qed.

(** X22.  After a run on a warehouse that holds each item under its own
    SKU, [summary] lists one row per registered SKU, in registration order,
    and the lost sales of the rows add up to the total that
    [compute_service_level] uses. *)
Theorem summary_after_run (days start_day : Z) (seed : option Z) (w w' : World) :
  registered (items (wh w)) ->
  simulate strategy days start_day seed w = Ok w' ->
  map row_sku (summary (wh w')) = keys (items (wh w))
  /\ sumZ (map row_lost_sales (summary (wh w'))) = total_lost (wh w').
Proof.
  intros [_ Hk] H.
  destruct (simulate_rel strategy _ _ same_config_step_closed _ _ _ _ _
              (queues_ok_True _) H) as [Hrel _].
  split.
  - unfold summary, values, keys. rewrite !map_map. simpl.
    clear H. induction Hrel as [|e e' d d' [Hke Hcfg] Hrel IH]; simpl.
    + reflexivity.
    + inversion Hk as [|x l Hx Hl]; subst. f_equal; [|auto].
      destruct Hcfg as [Hsku _]. congruence.
  - unfold summary, total_lost. now rewrite map_map.
Qed.

End Demands.

(** X23.  With some recorded demand, the service level is 1 exactly when
    no sale was lost. *)
Theorem service_level_one_iff (self : Warehouse) :
  0 < total_demand self ->
  (compute_service_level self == 1)%Q <-> total_lost self = 0.
Proof.
  intros Hd. unfold compute_service_level.
  destruct (total_demand self <=? 0) eqn:E; [apply Z.leb_le in E; lia|].
  assert (Hd' : ~ (inject_Z (total_demand self) == 0)%Q).
  { intros H. unfold Qeq in H. simpl in H. lia. }
  split.
  - intros H.
    assert (H0 : (inject_Z (total_lost self) / inject_Z (total_demand self) == 0)%Q).
    { set (x := (inject_Z (total_lost self) / inject_Z (total_demand self))%Q) in *.
      lra. }
    assert (H1 : (inject_Z (total_lost self) == 0)%Q).
    { rewrite <- (Qmult_div_r (inject_Z (total_lost self)) (inject_Z (total_demand self)))
        by exact Hd'.
      rewrite H0. ring. }
    unfold Qeq in H1. simpl in H1. lia.
  - intros ->. unfold Qdiv. ring.
Qed.

(** ** The plans of the strategies *)

(** A loop whose body decides on an order from the item alone: the plan it
    returns holds the orders decided, and no decision raised. *)
Lemma plan_loop_get (order : InventoryItem -> result (option Z))
    (body : dict Z -> string -> InventoryItem -> result (dict Z)) :
  (forall plan sku item,
     body plan sku item
     = (o <- order item ;;
        Ok match o with
           | Some q => dict_set sku q plan
           | None => plan
           end)) ->
  forall (its : dict InventoryItem) (acc p : dict Z) (k : string),
    NoDup (keys its) ->
    plan_loop body its acc = Ok p ->
    match dict_get k its with
    | Some item =>
        exists o,
          order item = Ok o
          /\ dict_get k p = match o with
                           | Some q => Some q
                           | None => dict_get k acc
                           end
    | None => dict_get k p = dict_get k acc
    end.
Proof.
  intros Hbody.
  induction its as [|[k0 item0] its IH]; intros acc p k Hnd H; cbn [plan_loop] in H.
  - injection H as <-. reflexivity.
  - inversion Hnd as [|x l Hnotin Hnd']; subst.
    rewrite Hbody in H.
    destruct (order item0) as [o|e] eqn:Ho; cbn [bind] in H; [|discriminate].
    specialize (IH _ p k Hnd' H). simpl.
    destruct (String.eqb k k0) eqn:E.
    + apply String.eqb_eq in E. subst k0.
      apply dict_get_None_notin in Hnotin. rewrite Hnotin in IH.
      exists o. split; [exact Ho|]. rewrite IH.
      destruct o; [apply dict_get_set_same | reflexivity].
    + apply String.eqb_neq in E.
      assert (Hacc : dict_get k (match o with
                                 | Some q => dict_set k0 q acc
                                 | None => acc
                                 end) = dict_get k acc).
      { destruct o; [|reflexivity]. apply dict_get_set_other. congruence. }
      rewrite Hacc in IH. exact IH.
Qed.

(** X25.  A plan that [HeuristicStrategy] returns holds exactly the items
    whose stock is under [int(daily_demand) + ceil(daily_demand *
    safety_factor)], each with [round(daily_demand * 7 * weeks)], all
    computed in binary64; other SKUs, registered or not, have no entry. *)
Theorem heuristic_plan_lookup (self : HeuristicStrategy) (warehouse : Warehouse)
    (day : Z) (p : dict Z) (sku : string) :
  NoDup (keys (items warehouse)) ->
  HeuristicStrategy_plan self warehouse day = Ok p ->
  match dict_get sku (items warehouse) with
  | None => dict_get sku p = None
  | Some item =>
      exists safety whole,
        float_ceil (fmul (daily_demand_float item) (safety_factor self))
          = Ok safety
        /\ float_trunc (daily_demand_float item) = Ok whole
        /\ if stock item <? whole + safety
           then exists weeks_float q,
                  float_of_int (weeks self) = Ok weeks_float
                  /\ float_round (fmul (fmul (daily_demand_float item) (to_float 7))
                                       weeks_float) = Ok q
                  /\ dict_get sku p = Some q
           else dict_get sku p = None
  end.
Proof.
  intros Hnd Hp. unfold HeuristicStrategy_plan in Hp.
  pose (order := fun item : InventoryItem =>
          safety <- float_ceil (fmul (daily_demand_float item) (safety_factor self)) ;;
          whole <- float_trunc (daily_demand_float item) ;;
          if stock item <? whole + safety
          then
            weeks_float <- float_of_int (weeks self) ;;
            q <- float_round (fmul (fmul (daily_demand_float item) (to_float 7))
                                   weeks_float) ;;
            Ok (Some q)
          else Ok None).
  match type of Hp with
  | plan_loop ?body _ _ = _ =>
      assert (Hbody : forall plan k item,
                 body plan k item
                 = (o <- order item ;;
                    Ok match o with
                       | Some q => dict_set k q plan
                       | None => plan
                       end))
  end.
  { intros plan k item. unfold order.
    destruct (float_ceil _) as [safety|]; cbn [bind]; [|reflexivity].
    destruct (float_trunc _) as [whole|]; cbn [bind]; [|reflexivity].
    destruct (stock item <? whole + safety); [|reflexivity].
    destruct (float_of_int _) as [w|]; cbn [bind]; [|reflexivity].
    destruct (float_round _) as [q|]; reflexivity. }
  pose proof (plan_loop_get order _ Hbody (items warehouse) [] p sku Hnd Hp) as H.
  destruct (dict_get sku (items warehouse)) as [item|]; [|exact H].
  destruct H as (o & Ho & Hget). unfold order in Ho. clear Hp Hbody order.
  destruct (float_ceil _) as [safety|] eqn:Hsafety; cbn [bind] in Ho;
    [|discriminate].
  destruct (float_trunc _) as [whole|] eqn:Hwhole; cbn [bind] in Ho;
    [|discriminate].
  exists safety, whole. split; [reflexivity|]. split; [reflexivity|].
  destruct (stock item <? whole + safety).
  - destruct (float_of_int _) as [w|] eqn:Hw; cbn [bind] in Ho; [|discriminate].
    destruct (float_round _) as [q|] eqn:Hq; cbn [bind] in Ho; [|discriminate].
    injection Ho as <-. exists w, q.
    split; [reflexivity|]. split; [exact Hq | exact Hget].
  - injection Ho as <-. exact Hget.
Qed.

(** X26.  A plan that [EOQStrategy] returns holds exactly the items with
    positive annual demand, order cost and holding cost whose stock is at or
    under the reorder point [ceil(daily_demand * expected_lead_time_mean)],
    each with the rounded economic order quantity
    [round(sqrt(2 * D * S / H))], all computed in binary64. *)
Theorem eoq_plan_lookup (warehouse : Warehouse) (day : Z) (p : dict Z)
    (sku : string) :
  NoDup (keys (items warehouse)) ->
  EOQStrategy_plan warehouse day = Ok p ->
  match dict_get sku (items warehouse) with
  | None => dict_get sku p = None
  | Some item =>
      let D := to_float (annual_demand item) in
      let S := to_float (order_cost item) in
      let H := to_float (holding_cost item) in
      if float_le_0 D || float_le_0 S || float_le_0 H
      then dict_get sku p = None
      else
        exists twice root q mean reorder_point,
          int_times_float 2 D = Ok twice
          /\ math_sqrt (fdiv (fmul twice S) H) = Ok root
          /\ float_round root = Ok q
          /\ expected_lead_time_mean (supplier item) = Ok mean
          /\ float_ceil (fmul (daily_demand_float item) mean) = Ok reorder_point
          /\ dict_get sku p = if stock item <=? reorder_point then Some q else None
  end.
Proof.
  intros Hnd Hp. unfold EOQStrategy_plan in Hp.
  pose (order := fun item : InventoryItem =>
          let D := to_float (annual_demand item) in
          let S := to_float (order_cost item) in
          let H := to_float (holding_cost item) in
          if float_le_0 D || float_le_0 S || float_le_0 H then Ok None
          else
            twice <- int_times_float 2 D ;;
            root <- math_sqrt (fdiv (fmul twice S) H) ;;
            q <- float_round root ;;
            mean <- expected_lead_time_mean (supplier item) ;;
            reorder_point <- float_ceil (fmul (daily_demand_float item) mean) ;;
            if stock item <=? reorder_point then Ok (Some q) else Ok None).
  match type of Hp with
  | plan_loop ?body _ _ = _ =>
      assert (Hbody : forall plan k item,
                 body plan k item
                 = (o <- order item ;;
                    Ok match o with
                       | Some q => dict_set k q plan
                       | None => plan
                       end))
  end.
  { intros plan k item. unfold order. cbv zeta.
    destruct (float_le_0 _ || float_le_0 _ || float_le_0 _); [reflexivity|].
    destruct (int_times_float _ _) as [twice|]; cbn [bind]; [|reflexivity].
    destruct (math_sqrt _) as [root|]; cbn [bind]; [|reflexivity].
    destruct (float_round _) as [q|]; cbn [bind]; [|reflexivity].
    destruct (expected_lead_time_mean _) as [mean|]; cbn [bind]; [|reflexivity].
    destruct (float_ceil _) as [r|]; cbn [bind]; [|reflexivity].
    destruct (stock item <=? r); reflexivity. }
  pose proof (plan_loop_get order _ Hbody (items warehouse) [] p sku Hnd Hp) as H.
  destruct (dict_get sku (items warehouse)) as [item|]; [|exact H].
  destruct H as (o & Ho & Hget). unfold order in Ho. cbv zeta in Ho |- *.
  clear Hp Hbody order.
  destruct (float_le_0 _ || float_le_0 _ || float_le_0 _).
  - injection Ho as <-. exact Hget.
  - destruct (int_times_float _ _) as [twice|] eqn:H1; cbn [bind] in Ho;
      [|discriminate].
    destruct (math_sqrt _) as [root|] eqn:H2; cbn [bind] in Ho; [|discriminate].
    destruct (float_round _) as [q|] eqn:H3; cbn [bind] in Ho; [|discriminate].
    destruct (expected_lead_time_mean _) as [mean|] eqn:H4; cbn [bind] in Ho;
      [|discriminate].
    destruct (float_ceil _) as [r|] eqn:H5; cbn [bind] in Ho; [|discriminate].
    exists twice, root, q, mean, r.
    split; [reflexivity|]. split; [exact H2|]. split; [exact H3|].
    split; [reflexivity|]. split; [exact H5|].
    destruct (stock item <=? r); injection Ho as <-; exact Hget.
Qed.

Lemma dict_set_absent {V : Type} (k : string) (v : V) (d : dict V) :
  ~ In k (keys d) -> dict_set k v d = d ++ [(k, v)].
Proof.
  induction d as [|[k' v'] d IH]; simpl; intros H; [reflexivity|].
  destruct (String.eqb k k') eqn:E.
  - apply String.eqb_eq in E. subst. exfalso. auto.
  - f_equal. apply IH. tauto.
Qed.

Lemma fold_dict_set_fresh {V : Type} (f : string -> V) (ks : list string) :
  NoDup ks ->
  forall acc,
    (forall k, In k ks -> ~ In k (keys acc)) ->
    fold_left (fun plan sku => dict_set sku (f sku) plan) ks acc
    = acc ++ map (fun k => (k, f k)) ks.
Proof.
  induction 1 as [|k ks Hnotin Hnd IH]; intros acc Hfresh; simpl.
  - now rewrite app_nil_r.
  - rewrite dict_set_absent by (apply Hfresh; now left).
    rewrite IH.
    + now rewrite <- app_assoc.
    + intros k' Hk'. unfold keys. rewrite map_app, in_app_iff. simpl.
      intros [Hin|[<-|[]]]; [|contradiction].
      apply (Hfresh k'); [now right | exact Hin].
Qed.

(** X27.  When the solver call returns, the plan of [LPStrategy] has one
    entry for every SKU of the warehouse, in registration order, whatever
    the solver answers; for an empty warehouse it is empty, and the solver
    is not called. *)
Theorem lp_plan_keys (solve : LpSolver) (self : LPStrategy)
    (warehouse : Warehouse) (day : Z) :
  NoDup (keys (items warehouse)) ->
  (items warehouse = [] -> LPStrategy_plan solve self warehouse day = Ok [])
  /\ (forall solution,
        solve (lp_problem self warehouse day) = Ok solution ->
        exists p,
          LPStrategy_plan solve self warehouse day = Ok p
          /\ keys p = keys (items warehouse)).
Proof.
  intros Hnd. split.
  - intros Hempty. unfold LPStrategy_plan. now rewrite Hempty.
  - intros solution Hsolve. unfold LPStrategy_plan.
    destruct (rev (items warehouse)) as [|[k last] tl] eqn:Hrev.
    + apply (f_equal (@rev _)) in Hrev. rewrite rev_involutive in Hrev.
      exists []. now rewrite Hrev.
    + rewrite Hsolve. cbn [bind]. eexists. split; [reflexivity|].
      rewrite fold_dict_set_fresh by (exact Hnd || (intros k0 _ [])).
      simpl. unfold keys at 1. rewrite map_map. simpl. apply map_id.
Qed.

Lemma lp_round_minimum (item : InventoryItem) (qval : option Q) :
  lp_round item qval <= 0 \/ min_order (supplier item) <= lp_round item qval.
Proof.
  unfold lp_round, min_order_qty.
  destruct (match qval with Some v => py_round v | None => 0 end) as [|q|q];
    simpl; try lia.
  destruct (Z.pos q <? min_order (supplier item)) eqn:E; simpl; [lia|].
  apply Z.ltb_ge in E. lia.
Qed.

(** X28.  When all suppliers have the same minimum order, no quantity
    planned by [LPStrategy] is strictly between 0 and that minimum. *)
Theorem lp_plan_common_minimum (solve : LpSolver) (self : LPStrategy)
    (warehouse : Warehouse) (day m : Z) (p : dict Z) (sku : string) (q : Z) :
  Forall (fun it => min_order (supplier it) = m) (values (items warehouse)) ->
  LPStrategy_plan solve self warehouse day = Ok p ->
  dict_get sku p = Some q ->
  q <= 0 \/ m <= q.
Proof.
  intros Hm Hp Hq.
  destruct (items warehouse) as [|e its] eqn:Hits.
  { unfold LPStrategy_plan in Hp. rewrite Hits in Hp. simpl in Hp.
    injection Hp as <-. discriminate. }
  assert (Hne : items warehouse <> []) by (rewrite Hits; discriminate).
  destruct (solve (lp_problem self warehouse day)) as [solution|err] eqn:Hsolve.
  - destruct (lp_plan_get solve self warehouse day solution Hne Hsolve)
      as (p' & front & k & last & Hitems & Hp' & Hget).
    rewrite Hp in Hp'. injection Hp' as <-.
    rewrite Hget in Hq.
    destruct (in_dec string_dec sku (keys (items warehouse))); [|discriminate].
    injection Hq as <-.
    assert (Hlast : min_order (supplier last) = m).
    { rewrite <- Hits, Forall_forall in Hm. apply Hm. rewrite Hitems.
      unfold values. rewrite map_app. apply in_or_app. right. now left. }
    rewrite <- Hlast. apply lp_round_minimum.
  - exfalso. unfold LPStrategy_plan in Hp.
    destruct (rev (items warehouse)) as [|[k last] tl] eqn:Hrev.
    + apply (f_equal (@rev _)) in Hrev. rewrite rev_involutive in Hrev.
      contradiction.
    + rewrite Hsolve in Hp. discriminate.
Qed.

(** X29.  When the solver call returns, a value between 0 and a bound [ub]
    is planned as a quantity between 0 and the larger of [ub] and the
    minimum order of the supplier of one of the items. *)
Theorem lp_plan_within_bound (solve : LpSolver) (self : LPStrategy)
    (warehouse : Warehouse) (day : Z) (solution : LpSolution) (sku : string)
    (v : Q) (ub : Z) :
  In sku (keys (items warehouse)) ->
  solve (lp_problem self warehouse day) = Ok solution ->
  varValue solution (Q_ sku) = Some v ->
  (0 <= v <= inject_Z ub)%Q ->
  exists p q last,
    In last (values (items warehouse))
    /\ LPStrategy_plan solve self warehouse day = Ok p
    /\ dict_get sku p = Some q
    /\ 0 <= q <= Z.max ub (min_order (supplier last)).
Proof.
  intros Hin Hsolve Hv [Hv0 Hv1].
  assert (Hne : items warehouse <> []).
  { intros Hempty. rewrite Hempty in Hin. destruct Hin. }
  destruct (lp_plan_get solve self warehouse day solution Hne Hsolve)
    as (p & front & k & last & Hitems & Hp & Hget).
  exists p, (lp_round last (Some v)), last.
  split.
  { rewrite Hitems. unfold values. rewrite map_app. apply in_or_app.
    right. now left. }
  split; [exact Hp|]. split.
  { rewrite Hget, Hv.
    destruct (in_dec string_dec sku (keys (items warehouse))); [reflexivity|].
    contradiction. }
  assert (H0 : 0 <= py_round v) by (apply py_round_ge_int; exact Hv0).
  assert (H1 : py_round v <= ub) by (apply py_round_le_int; exact Hv1).
  unfold lp_round, min_order_qty.
  destruct ((0 <? py_round v) && (py_round v <? min_order (supplier last))) eqn:E.
  - apply andb_prop in E. destruct E as [E1 E2].
    apply Z.ltb_lt in E1, E2. lia.
  - lia.
Qed.

(** X30.  In the problem that [LPStrategy] builds the shortage variable is
    subtracted from the covered side, so it cannot relax coverage: if the
    problem is feasible then, for every item, stock, arrivals within the
    horizon and the capacity bound of one order cover the demand of the
    horizon. *)
Theorem lp_feasible_needs_capacity (self : LPStrategy) (warehouse : Warehouse)
    (day : Z) (sku : string) (item : InventoryItem) :
  lp_feasible (lp_problem self warehouse day) ->
  In (sku, item) (items warehouse) ->
  (daily_demand item * inject_Z (planning_days self)
   <= inject_Z (stock item + incoming_within self warehouse sku day)
      + inject_Z (Z.min (max_supply_per_order (supplier item))
                        (Z.max 0 (max_capacity item - stock item))))%Q.
Proof.
  intros (a & Hvars & Hcons) Hin.
  rewrite Forall_forall in Hvars, Hcons.
  assert (HS : (0 <= a (S_ sku))%Q).
  { apply Hvars. unfold lp_problem. simpl. apply in_or_app. right.
    apply in_map_iff. exists (sku, item). auto. }
  assert (Hc : forall c, In c (lp_item_constraints self warehouse day sku item) ->
                         lp_holds a c).
  { intros c Hc. apply Hcons. unfold lp_problem. simpl. apply in_or_app. left.
    apply in_flat_map. exists (sku, item). auto. }
  pose proof (Hc _ (or_introl eq_refl)) as H1.
  pose proof (Hc _ (or_intror (or_introl eq_refl))) as H2.
  unfold lp_holds, lp_eval in H1, H2. simpl in H1, H2.
  lra.
Qed.

(** * The theorems at concrete inputs *)

Local Open Scope string_scope.

(** C1, on the code.  On day 12 the arrival due on day 12 stands behind the
    one due on day 13: [_receive_arrivals] releases nothing, the queue and the
    stock are as before. *)
Theorem receive_arrivals_skips_due_arrival :
  _receive_arrivals crossed_arrivals 12 = crossed_arrivals
  /\ dict_get "T1" (incoming (_receive_arrivals crossed_arrivals 12))
     = Some [(13, 37); (12, 37)]
  /\ option_map stock (dict_get "T1" (items (_receive_arrivals crossed_arrivals 12)))
     = Some 0.
Proof. split; [|split]; vm_compute; reflexivity. Qed.

(** The same queue comes up in a run of the catalogue of [main.py] under
    its heuristic strategy: after day 11 the queue of T1 is as above, and the
    arrivals of day 12 leave it as it is. *)
Example crossed_arrivals_in_a_run :
  returns
    (@simulate lcg (Heuristic {| safety_factor := to_float (3 # 10); weeks := 2 |})
       11 1 (Some 42) (start_world build_warehouse))
    (fun w11 =>
       dict_get "T1" (incoming (wh w11)) = Some [(13, 37); (12, 37)]
       /\ dict_get "T1" (incoming (_receive_arrivals (wh w11) 12))
          = Some [(13, 37); (12, 37)]).
Proof. vm_compute. split; reflexivity. Qed.

(** C2, on the code.  B1 is supplied by SlowSup, whose minimum is 20; its
    value 1050/73 rounds to 14, which is compared with the minimum 10 of the
    supplier of the last item (T1, FastSup) and stays 14; SlowSup then
    rejects the order.  S2, rounded to 3, is raised to 10. *)
Theorem lp_plan_rounds_against_last_supplier :
  LPStrategy_plan covering_solution lp_main low_biscuits 1
  = Ok [("S1", 0); ("S2", 10); ("B1", 14); ("T1", 0)]
  /\ option_map (fun it => min_order_qty (supplier it))
       (dict_get "B1" (items low_biscuits)) = Some 20
  /\ @place_order lcg supplier_slow "B1" 14 1 0 = Ok ((0, None), 0).
Proof. split; [|split]; vm_compute; reflexivity. Qed.



(** C7, against the claim.  [sell(-5)] and [receive(-5)] on an item with
    stock 50 return as on any other quantity, and the stock moves to 55 and
    to 45. *)
Lemma negative_quantity_moves_stock :
  snd (sell item_x1 (-5)) = (-5, 0)
  /\ stock (fst (sell item_x1 (-5))) = 55
  /\ stock (fst (sell item_x1 (-5))) <> stock item_x1
  /\ snd (receive item_x1 (-5)) = -5
  /\ stock (fst (receive item_x1 (-5))) = 45
  /\ stock (fst (receive item_x1 (-5))) <> stock item_x1.
Proof.
  repeat split; try (vm_compute; reflexivity); vm_compute; discriminate.
Qed.

Lemma negative_quantity_accepted_witness :
  (snd (receive item_x1 (-5)) = -5
   /\ stock (fst (receive item_x1 (-5))) = stock item_x1 + -5
   /\ lost_sales (fst (receive item_x1 (-5))) = lost_sales item_x1
   /\ total_ordered (fst (receive item_x1 (-5))) = total_ordered item_x1
   /\ total_cost (fst (receive item_x1 (-5))) = total_cost item_x1)
  /\ snd (sell item_x1 (-5)) = (-5, 0)
  /\ stock (fst (sell item_x1 (-5))) = stock item_x1 - -5.
Proof.
  assert (Hneg : -5 < 0) by lia.
  assert (Hstock : 0 <= stock item_x1) by (vm_compute; discriminate).
  destruct (negative_quantity_accepted item_x1 (-5) Hneg) as [Hr Hs].
  destruct (Hs Hstock) as (Hs1 & Hs2 & _).
  split; [exact Hr|]. split; [exact Hs1 | exact Hs2].
Defined.

Lemma place_order_contract_witness :
  @place_order lcg supplier_fast "S1" 5 1 42 = Ok ((0, None), 42)
  /\ (exists lead_time g',
        @randint lcg 1 3 42 = Ok (lead_time, g')
        /\ 1 <= lead_time <= 3
        /\ @place_order lcg supplier_fast "S1" 600 1 42
           = (scaled <- int_times_float (Z.min 600 500) (to_float (98 # 100)) ;;
              accepted <- float_round scaled ;;
              Ok ((accepted, Some (1 + lead_time)), g')))
  /\ (scaled <- int_times_float (Z.min 600 500) (to_float (98 # 100)) ;;
      float_round scaled) = Ok 490.
Proof.
  split; [|split].
  - apply (proj1 (@place_order_contract lcg supplier_fast "S1" 5 1 42)).
    right. simpl. lia.
  - apply (proj2 (proj2 (@place_order_contract lcg supplier_fast "S1" 600 1 42))).
    + simpl. lia.
    + simpl. lia.
  - vm_compute. reflexivity.
Defined.

Lemma place_order_zero_fill_witness :
  @place_order lcg supplier_trickle "X1" 10 3 (gen (start_world
       (register_item new_Warehouse item_trickle)))
    = Ok ((0, Some (3 + (1 + fst (@randbelow lcg 5 0)))), snd (@randbelow lcg 5 0))
  /\ @_place_orders lcg [("X1", 10); ("X2", 7)] 3
       (start_world (register_item new_Warehouse item_trickle))
     = @_place_orders lcg [("X2", 7)] 3
         {| wh := register_item new_Warehouse item_trickle;
            gen := snd (@randbelow lcg 5 0);
            order_log :=
              [ {| ev_sku := "X1"; ev_day := 3; ev_requested := 10;
                   ev_accepted := 0;
                   ev_arrival := Some (3 + (1 + fst (@randbelow lcg 5 0))) |} ] |}.
Proof.
  assert (Hpos : 0 < 10) by lia.
  assert (Hmoq : min_order supplier_trickle <= 10) by (vm_compute; discriminate).
  assert (Hzero : (scaled <- int_times_float
                               (Z.min 10 (max_supply_per_order supplier_trickle))
                               (fill_rate supplier_trickle) ;;
                   float_round scaled) = Ok 0)
    by (vm_compute; reflexivity).
  assert (Hrange : fst (lead_time_range supplier_trickle)
                   <= snd (lead_time_range supplier_trickle))
    by (vm_compute; discriminate).
  destruct (@place_order_zero_fill lcg supplier_trickle "X1" 10 3
              (start_world (register_item new_Warehouse item_trickle))
              item_trickle [("X2", 7)] Hpos Hmoq Hzero Hrange eq_refl eq_refl)
    as (_ & Hpo & Hrest).
  split; [exact Hpo | exact Hrest].
Defined.


Lemma returns_intro {A : Type} (r : result A) (P K : A -> Prop) :
  (forall a, r = Ok a -> K a -> P a) -> returns r K -> returns r P.
Proof.
  unfold returns. destruct r as [a|e]; intros H HK; [|exact HK].
  exact (H a eq_refl HK).
Qed.

Lemma small_warehouse_bounds :
  Forall item_bounds (values (items build_small_warehouse)).
Proof.
  constructor; [|constructor; [|constructor]];
    (split; [simpl; lia | constructor]).
Qed.

Lemma small_warehouse_pending : pending_nonneg build_small_warehouse.
Proof. constructor. Qed.

Lemma small_warehouse_accounted : accounted build_small_warehouse.
Proof.
  split.
  - simpl. constructor; [|constructor; [|constructor]]; simpl.
    + intros [H|[]]. discriminate H.
    + intros [].
  - constructor; [|constructor; [|constructor]];
      (split; [reflexivity | simpl; lia]).
Qed.

Lemma simulate_stock_bounds_witness :
  returns (@simulate lcg test_heuristic 14 1 (Some 1)
             (start_world build_small_warehouse))
    (fun w' =>
       Forall (fun it => 0 <= stock it <= max_capacity it
                         /\ Forall (fun s => 0 <= s <= max_capacity it)
                                   (stock_history it))
              (values (items (wh w')))
       /\ map (fun it => List.length (stock_history it)) (values (items (wh w')))
          = [14%nat; 14%nat]).
Proof.
  apply (returns_intro _ _
           (fun w' => map (fun it => List.length (stock_history it))
                          (values (items (wh w'))) = [14%nat; 14%nat])).
  - intros w' E Hlen. split; [|exact Hlen].
    exact (simulate_stock_bounds test_heuristic 14 1 (Some 1)
             (start_world build_small_warehouse) w'
             small_warehouse_bounds small_warehouse_pending E).
  - vm_compute. reflexivity.
Defined.

Lemma service_level_range_witness :
  returns (@simulate lcg test_heuristic 14 1 (Some 1)
             (start_world build_small_warehouse))
    (fun w' =>
       0 < total_demand (wh w')
       /\ compute_service_level (wh w')
          = (1 - inject_Z (sumZ (map lost_sales (values (items (wh w')))))
                 / inject_Z (sumZ (map (fun it => sumZ (demand_history it))
                                       (values (items (wh w'))))))%Q
       /\ (0 <= compute_service_level (wh w') <= 1)%Q).
Proof.
  apply (returns_intro _ _ (fun w' => 0 < total_demand (wh w'))).
  - intros w' E Hpos. split; [exact Hpos|].
    exact (proj1 (service_level_range test_heuristic 14 1 (Some 1)
                    (start_world build_small_warehouse) w'
                    small_warehouse_accounted small_warehouse_pending E) Hpos).
  - vm_compute. reflexivity.
Defined.


(** Without a seed the run goes on from the generator as it is: from two
    generator states the first day already differs. *)
Example simulate_unseeded_differs :
  returns (@simulate lcg test_heuristic 1 1 None
             (lcg_world build_small_warehouse 0))
    (fun w1 =>
       returns (@simulate lcg test_heuristic 1 1 None
                  (lcg_world build_small_warehouse 65536))
         (fun w2 =>
            map stock_history (values (items (wh w1))) = [[45]; [25]]
            /\ map stock_history (values (items (wh w2))) = [[44]; [23]])).
Proof. vm_compute. split; reflexivity. Qed.

(** ** Where binary64 shows

    [place_order] at quantities and fill rates where the float product and
    the exact product round to different integers, where the quantity is
    not a float, and where the conversions raise. *)
Example place_order_scales_in_binary64 :
  (scaled <- int_times_float 150 (to_float (7 # 100)) ;; float_round scaled)
    = Ok 11
  /\ py_round (150 * (7 # 100)) = 10
  /\ (scaled <- int_times_float 5 (to_float (1 # 10)) ;; float_round scaled)
     = Ok 0
  /\ (scaled <- int_times_float (2 ^ 53 + 1) (to_float 1) ;; float_round scaled)
     = Ok (2 ^ 53)
  /\ (scaled <- int_times_float (2 ^ 53 + 3) (to_float 1) ;; float_round scaled)
     = Ok (2 ^ 53 + 4)
  /\ (scaled <- int_times_float (2 ^ 1024) (to_float 1) ;; float_round scaled)
     = Raise OverflowError
  /\ (scaled <- int_times_float 10 (S754_infinity false) ;; float_round scaled)
     = Raise OverflowError
  /\ (scaled <- int_times_float 10 S754_nan ;; float_round scaled)
     = Raise ValueError.
Proof. repeat (split; [vm_compute; reflexivity|]). vm_compute. reflexivity. Qed.

(** With a daily demand of 100 and a safety factor of 0.07 the safety stock
    is [ceil(7.000000000000001) = 8]: at a stock of 107 the heuristic
    orders, where the exact threshold [100 + 7] would not. *)
Example heuristic_threshold_in_binary64 :
  HeuristicStrategy_plan heuristic_seven_percent
    (register_item new_Warehouse item_hundred_a_day) 1 = Ok [("H1", 700)]
  /\ float_ceil (fmul (daily_demand_float item_hundred_a_day)
                      (safety_factor heuristic_seven_percent)) = Ok 8
  /\ py_int (daily_demand item_hundred_a_day)
     + py_ceil (daily_demand item_hundred_a_day * (7 # 100)) = 107.
Proof. split; [|split]; vm_compute; reflexivity. Qed.

(** With an annual demand of 12118 and a mean lead time of 7.5 days the
    reorder point is [ceil(249.00000000000003) = 250]: at a stock of 250 the
    EOQ strategy orders, where the exact reorder point 249 would not.  The
    quantity is [round(sqrt(2 * 12118 * 30 / 1.8))]. *)
Example eoq_reorder_point_in_binary64 :
  EOQStrategy_plan (register_item new_Warehouse item_reorder_250) 1
    = Ok [("E1", 636)]
  /\ returns (expected_lead_time_mean supplier_week)
       (fun mean =>
          float_ceil (fmul (daily_demand_float item_reorder_250) mean) = Ok 250)
  /\ py_ceil (daily_demand item_reorder_250 * (15 # 2)) = 249.
Proof. split; [|split]; vm_compute; reflexivity. Qed.

(** ** Instances of the further properties *)

Lemma sell_conserves_witness :
  let '(self', (sold, lost)) := sell item_x1 60 in
  sold + lost = 60
  /\ 0 <= sold <= stock item_x1
  /\ stock self' = Z.max (stock item_x1 - 60) 0
  /\ lost = Z.max (60 - stock item_x1) 0
  /\ lost_sales self' = lost_sales item_x1 + lost
  /\ (0 < lost -> stock self' = 0).
Proof.
  apply (sell_conserves item_x1 60); [lia | vm_compute; discriminate].
Defined.

Lemma sell_twice_witness :
  fst (sell (fst (sell item_x1 30)) 40) = fst (sell item_x1 (30 + 40)).
Proof.
  apply (sell_twice item_x1 30 40); [lia | lia | vm_compute; discriminate].
Defined.

Lemma receive_fills_to_capacity_witness :
  let '(self', accepted) := receive item_x1 600 in
  0 <= accepted <= 600
  /\ stock self' = stock item_x1 + accepted
  /\ (stock item_x1 <= max_capacity item_x1 ->
      stock self' = Z.min (stock item_x1 + 600) (max_capacity item_x1))
  /\ (max_capacity item_x1 <= stock item_x1 -> accepted = 0 /\ self' = item_x1).
Proof.
  apply (receive_fills_to_capacity item_x1 600). lia.
Defined.

Lemma receive_twice_witness :
  fst (receive (fst (receive item_x1 300)) 200) = fst (receive item_x1 (300 + 200)).
Proof.
  apply (receive_twice item_x1 300 200); lia.
Defined.

Lemma place_order_empty_range_witness :
  @place_order lcg supplier_backwards "X1" 10 1 0 = Raise ValueError
  /\ @place_order lcg supplier_backwards "X1" 4 1 0 = Ok ((0, None), 0)
  /\ @place_order lcg supplier_backwards "X1" (2 ^ 1024) 1 0 = Raise ValueError
  /\ @place_order lcg
       {| supplier_name := "Backwards"; min_order := 5;
          max_supply_per_order := 2 ^ 1024; lead_time_range := (3, 1);
          fill_rate := to_float 1 |} "X1" (2 ^ 1024) 1 0
     = Raise OverflowError.
Proof.
  split; [|split; [|split]].
  - rewrite (@place_order_empty_range lcg supplier_backwards "X1" 10 1 0)
      by (simpl; lia).
    vm_compute. reflexivity.
  - rewrite (@place_order_empty_range lcg supplier_backwards "X1" 4 1 0)
      by (simpl; lia).
    vm_compute. reflexivity.
  - rewrite (@place_order_empty_range lcg supplier_backwards "X1" (2 ^ 1024) 1 0)
      by (simpl; lia).
    vm_compute. reflexivity.
  - rewrite (@place_order_empty_range lcg _ "X1" (2 ^ 1024) 1 0) by (simpl; lia).
    vm_compute. reflexivity.
Defined.

Lemma release_due_sorted_witness :
  release_due 12 "T1" [(12, 37); (13, 37)] (items crossed_arrivals)
  = (filter (fun e => Z.ltb 12 (fst e)) [(12, 37); (13, 37)],
     fold_left (fun its e => credit_arrival "T1" (snd e) its)
               (filter (fun e => Z.leb (fst e) 12) [(12, 37); (13, 37)])
               (items crossed_arrivals)).
Proof.
  apply (release_due_sorted 12 "T1" [(12, 37); (13, 37)]).
  constructor.
  - constructor; [simpl; lia | constructor].
  - constructor; constructor.
Defined.

Lemma release_due_stock_witness :
  exists released item',
    [(13, 37); (12, 37)]
    = (released
       ++ fst (release_due 13 "T1" [(13, 37); (12, 37)] (items crossed_arrivals)))%list
    /\ dict_get "T1" (snd (release_due 13 "T1" [(13, 37); (12, 37)]
                             (items crossed_arrivals))) = Some item'
    /\ stock item'
       = Z.min (stock toothpaste + sumZ (map snd released)) (max_capacity toothpaste)
    /\ lost_sales item' = lost_sales toothpaste
    /\ total_ordered item' = total_ordered toothpaste
    /\ total_cost item' = total_cost toothpaste.
Proof.
  apply (release_due_stock 13 "T1" [(13, 37); (12, 37)] (items crossed_arrivals)
           toothpaste).
  - reflexivity.
  - vm_compute; discriminate.
  - constructor; [simpl; lia|]. constructor; [simpl; lia | constructor].
Defined.

Lemma receive_arrivals_empties_witness :
  Forall (fun q => q = []) (values (incoming (_receive_arrivals crossed_arrivals 13))).
Proof.
  apply (receive_arrivals_empties crossed_arrivals 13).
  constructor; [|constructor].
  constructor; [simpl; lia|]. constructor; [simpl; lia | constructor].
Defined.

Lemma place_orders_skips_witness :
  @_place_orders lcg [("X1", 0); ("Z9", 7)] 1 (start_world build_small_warehouse)
  = Ok (start_world build_small_warehouse).
Proof.
  apply (@place_orders_skips lcg [("X1", 0); ("Z9", 7)] 1
           (start_world build_small_warehouse)).
  constructor; [left; simpl; lia|].
  constructor; [right; reflexivity | constructor].
Defined.

Lemma place_orders_appends_witness :
  returns (@_place_orders lcg [("X1", 10); ("X2", 3)] 1
             (start_world build_small_warehouse))
    (fun w' =>
       (exists added,
          get_default (incoming (wh w')) "X1" []
          = (get_default (incoming build_small_warehouse) "X1" [] ++ added)%list
          /\ Forall (placed_on 1 (items build_small_warehouse) "X1") added)
       /\ get_default (incoming (wh w')) "X1" [] = [(2, 10)]).
Proof.
  apply (returns_intro _ _
           (fun w' => get_default (incoming (wh w')) "X1" [] = [(2, 10)])).
  - intros w' E Hq. split; [|exact Hq].
    exact (@place_orders_appends lcg [("X1", 10); ("X2", 3)] 1
             (start_world build_small_warehouse) w' E "X1").
  - vm_compute. reflexivity.
Defined.

Lemma small_warehouse_registered : registered (items build_small_warehouse).
Proof.
  split; [exact (proj1 small_warehouse_accounted)|].
  constructor; [reflexivity|]. constructor; [reflexivity | constructor].
Qed.

Lemma simulate_keeps_catalogue_witness :
  returns (@simulate lcg test_heuristic 14 1 (Some 1)
             (start_world build_small_warehouse))
    (fun w' =>
       keys (items (wh w')) = ["X1"; "X2"]
       /\ exists it',
            dict_get "X1" (items (wh w')) = Some it' /\ same_config item_x1 it').
Proof.
  apply (returns_intro _ _ (fun _ => True)).
  - intros w' E _.
    destruct (@simulate_keeps_catalogue lcg test_heuristic 14 1 (Some 1)
                (start_world build_small_warehouse) w' E) as [Hkeys Hitems].
    split; [exact Hkeys | exact (Hitems "X1" item_x1 eq_refl)].
  - vm_compute. exact I.
Defined.

Lemma simulate_counters_grow_witness :
  returns (@simulate lcg test_heuristic 14 1 (Some 1)
             (start_world build_small_warehouse))
    (fun w' =>
       exists it',
         dict_get "X1" (items (wh w')) = Some it'
         /\ lost_sales item_x1 <= lost_sales it'
         /\ total_ordered item_x1 <= total_ordered it'
         /\ ((0 <= order_cost item_x1)%Q -> (0 <= unit_cost item_x1)%Q ->
             (total_cost item_x1 <= total_cost it')%Q)).
Proof.
  apply (returns_intro _ _ (fun _ => True)).
  - intros w' E _.
    exact (@simulate_counters_grow lcg test_heuristic 14 1 (Some 1)
             (start_world build_small_warehouse) w' E "X1" item_x1 eq_refl).
  - vm_compute. exact I.
Defined.

Lemma simulate_split_witness :
  @simulate lcg test_heuristic (7 + 7) 1 (Some 1) (start_world build_small_warehouse)
  = (w1 <- @simulate lcg test_heuristic 7 1 (Some 1)
             (start_world build_small_warehouse) ;;
     @simulate lcg test_heuristic 7 (1 + 7) None w1).
Proof.
  apply (@simulate_split lcg test_heuristic 7 7 1 (Some 1)
           (start_world build_small_warehouse)); lia.
Defined.

Lemma simulate_records_days_witness :
  returns (@simulate lcg test_heuristic 14 1 (Some 1)
             (start_world build_small_warehouse))
    (fun w' =>
       exists it' sh dh rh ch,
         dict_get "X1" (items (wh w')) = Some it'
         /\ stock_history it' = (stock_history item_x1 ++ sh)%list
         /\ demand_history it' = (demand_history item_x1 ++ dh)%list
         /\ reorder_history it' = (reorder_history item_x1 ++ rh)%list
         /\ cost_history it' = (cost_history item_x1 ++ ch)%list
         /\ List.length sh = Z.to_nat 14 /\ List.length dh = Z.to_nat 14
         /\ List.length rh = Z.to_nat 14 /\ List.length ch = Z.to_nat 14
         /\ (0 < 14 -> last sh 0 = stock it' /\ last ch 0%Q = total_cost it')).
Proof.
  apply (returns_intro _ _ (fun _ => True)).
  - intros w' E _.
    exact (@simulate_records_days lcg test_heuristic 14 1 (Some 1)
             (start_world build_small_warehouse) w' E "X1" item_x1 eq_refl).
  - vm_compute. exact I.
Defined.

Lemma simulate_demand_range_witness :
  returns (@simulate lcg test_heuristic 14 1 (Some 1)
             (start_world build_small_warehouse))
    (fun w' =>
       Forall (fun it => Forall (fun d => 5 <= d <= 15) (demand_history it))
              (values (items (wh w')))
       /\ map (fun it => List.length (demand_history it)) (values (items (wh w')))
          = [14%nat; 14%nat]).
Proof.
  apply (returns_intro _ _
           (fun w' => map (fun it => List.length (demand_history it))
                          (values (items (wh w'))) = [14%nat; 14%nat])).
  - intros w' E Hlen. split; [|exact Hlen].
    apply (@simulate_demand_range lcg test_heuristic 14 1 (Some 1)
             (start_world build_small_warehouse) w' small_warehouse_registered);
      [|exact E].
    constructor; [constructor|]. constructor; constructor.
  - vm_compute. reflexivity.
Defined.

Lemma range_forallb (P : Z -> bool) (lo : Z) (n : nat) :
  forallb P (map (fun i => lo + Z.of_nat i) (seq 0 n)) = true ->
  forall m, lo <= m < lo + Z.of_nat n -> P m = true.
Proof.
  intros H m Hm. rewrite forallb_forall in H. apply H.
  apply in_map_iff. exists (Z.to_nat (m - lo)). split; [lia|].
  apply in_seq. lia.
Qed.

Lemma test_supplier_fills : fills test_supplier.
Proof.
  intros m Hm. simpl in Hm.
  pose (P := fun m => match (scaled <- int_times_float m (fill_rate test_supplier) ;;
                              float_round scaled) with
                      | Ok _ => true
                      | Raise _ => false
                      end).
  assert (HP : P m = true).
  { apply (range_forallb P 1 200); [vm_compute; reflexivity | lia]. }
  unfold P in HP.
  destruct (scaled <- int_times_float m (fill_rate test_supplier) ;;
            float_round scaled) as [accepted|e]; [eauto | discriminate].
Qed.

Lemma simulate_returns_witness :
  exists w',
    @simulate lcg (LP always_three lp_main) 14 1 (Some 1)
      (start_world build_small_warehouse)
    = Ok w'.
Proof.
  apply (@simulate_returns lcg (LP always_three lp_main)).
  - intros wh0 day. simpl. unfold LPStrategy_plan.
    destruct (rev (items wh0)) as [|[k last] tl]; eexists; reflexivity.
  - constructor; [|constructor; [|constructor]];
      (split; [unfold valid_lead_time; simpl; lia | exact test_supplier_fills]).
Defined.

Lemma register_all_valid_witness :
  let self := register_all [item_x1; toothpaste] new_Warehouse in
  registered (items self)
  /\ accounted self
  /\ pending_nonneg self
  /\ Forall item_bounds (values (items self))
  /\ incoming self = [].
Proof.
  apply (register_all_valid [item_x1; toothpaste]).
  constructor; [|constructor; [|constructor]];
    (split; [simpl; lia | split; [reflexivity | split; reflexivity]]).
Defined.

Lemma summary_after_run_witness :
  returns (@simulate lcg test_heuristic 14 1 (Some 1)
             (start_world build_small_warehouse))
    (fun w' =>
       map row_sku (summary (wh w')) = keys (items build_small_warehouse)
       /\ sumZ (map row_lost_sales (summary (wh w'))) = total_lost (wh w')).
Proof.
  apply (returns_intro _ _ (fun _ => True)).
  - intros w' E _.
    exact (@summary_after_run lcg test_heuristic 14 1 (Some 1)
             (start_world build_small_warehouse) w' small_warehouse_registered E).
  - vm_compute. exact I.
Defined.

Lemma service_level_one_iff_witness :
  returns (@simulate lcg test_heuristic 14 1 (Some 1)
             (start_world build_small_warehouse))
    (fun w' =>
       0 < total_demand (wh w')
       /\ ((compute_service_level (wh w') == 1)%Q <-> total_lost (wh w') = 0)).
Proof.
  apply (returns_intro _ _ (fun w' => 0 < total_demand (wh w'))).
  - intros w' E Hpos. split; [exact Hpos|].
    exact (service_level_one_iff (wh w') Hpos).
  - vm_compute. reflexivity.
Defined.

Lemma crossed_arrivals_keys : NoDup (keys (items crossed_arrivals)).
Proof. constructor; [intros [] | constructor]. Qed.

Lemma heuristic_plan_lookup_witness :
  HeuristicStrategy_plan {| safety_factor := to_float (2 # 10); weeks := 1 |}
    crossed_arrivals 12 = Ok [("T1", 19)]
  /\ exists safety whole,
       float_ceil (fmul (daily_demand_float toothpaste) (to_float (2 # 10)))
         = Ok safety
       /\ float_trunc (daily_demand_float toothpaste) = Ok whole
       /\ if Z.ltb (stock toothpaste) (whole + safety)
          then exists weeks_float q,
                 float_of_int 1 = Ok weeks_float
                 /\ float_round (fmul (fmul (daily_demand_float toothpaste)
                                            (to_float 7)) weeks_float) = Ok q
                 /\ dict_get "T1" [("T1", 19)] = Some q
          else dict_get "T1" [("T1", 19)] = None.
Proof.
  assert (Hplan : HeuristicStrategy_plan
                    {| safety_factor := to_float (2 # 10); weeks := 1 |}
                    crossed_arrivals 12 = Ok [("T1", 19)])
    by (vm_compute; reflexivity).
  split; [exact Hplan|].
  exact (heuristic_plan_lookup {| safety_factor := to_float (2 # 10); weeks := 1 |}
           crossed_arrivals 12 [("T1", 19)] "T1" crossed_arrivals_keys Hplan).
Defined.

Lemma eoq_plan_lookup_witness :
  EOQStrategy_plan crossed_arrivals 12 = Ok [("T1", 183)]
  /\ exists twice root q mean reorder_point,
       int_times_float 2 (to_float (annual_demand toothpaste)) = Ok twice
       /\ math_sqrt (fdiv (fmul twice (to_float (order_cost toothpaste)))
                          (to_float (holding_cost toothpaste))) = Ok root
       /\ float_round root = Ok q
       /\ expected_lead_time_mean (supplier toothpaste) = Ok mean
       /\ float_ceil (fmul (daily_demand_float toothpaste) mean) = Ok reorder_point
       /\ dict_get "T1" [("T1", 183)]
          = if Z.leb (stock toothpaste) reorder_point then Some q else None.
Proof.
  assert (Hplan : EOQStrategy_plan crossed_arrivals 12 = Ok [("T1", 183)])
    by (vm_compute; reflexivity).
  split; [exact Hplan|].
  exact (eoq_plan_lookup crossed_arrivals 12 [("T1", 183)] "T1"
           crossed_arrivals_keys Hplan).
Defined.

Lemma lp_plan_keys_witness :
  (items build_small_warehouse = [] ->
   LPStrategy_plan always_three lp_main build_small_warehouse 1 = Ok [])
  /\ (exists p,
        LPStrategy_plan always_three lp_main build_small_warehouse 1 = Ok p
        /\ keys p = keys (items build_small_warehouse))
  /\ LPStrategy_plan solver_fails lp_main new_Warehouse 1 = Ok [].
Proof.
  destruct (lp_plan_keys always_three lp_main build_small_warehouse 1
              (proj1 small_warehouse_accounted)) as [Hempty Hkeys].
  split; [exact Hempty|]. split; [exact (Hkeys _ eq_refl)|].
  apply (lp_plan_keys solver_fails lp_main new_Warehouse 1); [constructor|].
  reflexivity.
Defined.

Lemma lp_plan_common_minimum_witness :
  LPStrategy_plan always_three lp_main build_small_warehouse 1
  = Ok [("X1", 5); ("X2", 5)]
  /\ (5 <= 0 \/ 5 <= 5).
Proof.
  assert (Hplan : LPStrategy_plan always_three lp_main build_small_warehouse 1
                  = Ok [("X1", 5); ("X2", 5)]) by (vm_compute; reflexivity).
  split; [exact Hplan|].
  apply (lp_plan_common_minimum always_three lp_main build_small_warehouse 1 5
           [("X1", 5); ("X2", 5)] "X1" 5).
  - constructor; [reflexivity|]. constructor; [reflexivity | constructor].
  - exact Hplan.
  - reflexivity.
Defined.

Lemma lp_plan_within_bound_witness :
  exists p q last,
    In last (values (items build_small_warehouse))
    /\ LPStrategy_plan always_three lp_main build_small_warehouse 1 = Ok p
    /\ dict_get "X1" p = Some q
    /\ 0 <= q <= Z.max 200 (min_order (supplier last)).
Proof.
  apply (lp_plan_within_bound always_three lp_main build_small_warehouse 1
           {| status := LpStatusOptimal; varValue := fun _ => Some 3%Q |}
           "X1" 3%Q 200).
  - left. reflexivity.
  - reflexivity.
  - reflexivity.
  - split; vm_compute; discriminate.
Defined.

Lemma lp_main_small_feasible :
  lp_feasible (lp_problem lp_main build_small_warehouse 1).
Proof.
  exists (fun _ => 0%Q). split.
  - apply Forall_forall. intros v _. apply Qle_refl.
  - unfold lp_problem. simpl.
    repeat (constructor; [unfold lp_holds, lp_eval; vm_compute; discriminate|]).
    constructor.
Qed.

Lemma lp_feasible_needs_capacity_witness :
  (daily_demand item_x1 * inject_Z (planning_days lp_main)
   <= inject_Z (stock item_x1 + incoming_within lp_main build_small_warehouse "X1" 1)
      + inject_Z (Z.min (max_supply_per_order (supplier item_x1))
                        (Z.max 0 (max_capacity item_x1 - stock item_x1))))%Q.
Proof.
  apply (lp_feasible_needs_capacity lp_main build_small_warehouse 1 "X1" item_x1
           lp_main_small_feasible).
  left. reflexivity.
Defined.
